(** * oci-k8s-resource-sync: the OCISecret reconciler and its ORAS client

    A shallow embedding of
    - [utils.FilterMapInPlace]                (package utils),
    - [orasclient.CreateClient], [GetDigest], [GetFiles],
      [GetFilesContentBinary]                 (package orasclient),
    - [OCISecretReconciler.Reconcile]         (package controller),
    together with the properties the design document states about them.

    Conventions of the embedding:
    - a Go [map[string]V] is [gomap V = option (gmap string V)]; [None] is
      the nil map (reads give the zero value, [len] is 0, a store panics);
    - a Go [[]byte] is [list byte]; [string(b)] and [[]byte(s)] are
      [string_of_list_byte] and [list_byte_of_string];
    - a Go function that can [panic] returns an [exec]: [Ret v] or
      [Panic e];
    - the Kubernetes API server behind [client.Client] is a [Cluster]: two
      object stores, a schedule of injected API failures and the trace of
      the calls made so far;
    - the registry, the credential parser and the staging directory (the
      oras-go library and package os) are the fields of an [Env];
    - the logger calls and the deferred release of the staging directory
      have no effect on what is stated here and are left out. *)

From Stdlib Require Import ZArith Strings.Byte Strings.Ascii Strings.String.
From stdpp Require Import base option list strings gmap fin_maps.

Local Open Scope string_scope.

(** ** Go values *)

Abbreviation bytes := (list byte).

(** Go maps: [None] is the nil map. *)
Definition gomap (V : Type) : Type := option (gmap string V).

Definition gomap_len {V} (m : gomap V) : nat :=
  match m with
  | None => 0
  | Some g => size g
  end.

Definition gomap_lookup {V} (m : gomap V) (k : string) : option V :=
  match m with
  | None => None
  | Some g => g !! k
  end.

(** [m[k]] for a map of strings: the zero value [""] when [k] is missing. *)
Definition gomap_index (m : gomap string) (k : string) : string :=
  default "" (gomap_lookup m k).

(** Go errors, as far as the code tells them apart. *)
Inductive error : Type :=
  | ErrNotFound (name : string)        (* apierrors.IsNotFound *)
  | ErrAlreadyExists (name : string)
  | ErrAPI (msg : string)              (* any other API-server failure *)
  | ErrLib (msg : string)              (* an error of oras-go or package os *)
  | ErrWrapped (msg : string) (cause : error)   (* fmt.Errorf("...: %v", err) *)
  | ErrRuntime (msg : string).         (* a Go runtime panic *)

Definition IsNotFound (e : error) : bool :=
  match e with
  | ErrNotFound _ => true
  | _ => false
  end.

(** The result of a Go function that may panic. *)
Inductive exec (A : Type) : Type :=
  | Ret (a : A)
  | Panic (v : error).
Arguments Ret {A} a.
Arguments Panic {A} v.

(** ** package utils *)

Module utils.

(** The lookup set built by the first loop of [FilterMapInPlace]. *)
Definition allowedSet (allowedKeys : list string) : gmap string unit :=
  foldl (fun s key => <[key := tt]> s) ∅ allowedKeys.

(** The second loop: [for key := range m], deleting from [m] itself. *)
Definition FilterMapInPlace {V} (m : gomap V) (allowedKeys : list string)
  : gomap V :=
  let allowed := allowedSet allowedKeys in
  match m with
  | None => None
  | Some g =>
      Some (map_fold
              (fun key _ acc =>
                 match allowed !! key with
                 | Some _ => acc
                 | None => delete key acc
                 end) g g)
  end.

End utils.

(** ** package orasclient *)

Module orasclient.

(** [auth.Client]: the retrying transport and the token cache are fixed,
    only [Credential] varies (the credential store, named by the Docker
    config it was parsed from). *)
Record Client : Type := mkClient {
  Credential : option bytes
}.

(** [remote.Repository] *)
Record Repository : Type := mkRepository {
  Reference : string;
  repo_Client : Client
}.

(** One entry of the staging directory as [os.ReadDir] lists it, with
    what [os.ReadFile] gives for it. *)
Record DirEntry : Type := mkDirEntry {
  entry_Name : string;
  IsDir : bool;
  ReadFile : error + bytes
}.

(** The world outside the process. *)
Record Env : Type := mkEnv {
  (* remote.NewRepository: [Some e] for a malformed reference *)
  NewRepository : string -> option error;
  (* credentials.NewMemoryStoreFromDockerConfig *)
  NewMemoryStoreFromDockerConfig : bytes -> option error;
  (* oras.Fetch: the digest of the manifest descriptor *)
  Fetch : Repository -> string -> error + string;
  (* os.MkdirTemp("/tmp", "oras") *)
  MkdirTemp : error + string;
  (* file.New(tmpdir) *)
  file_New : string -> option error;
  (* oras.Copy into the file store: the manifest digest, and what
     os.ReadDir then finds in the staging directory *)
  Copy : Repository -> string -> error + (string * (error + list DirEntry))
}.

Record Filemap : Type := mkFilemap {
  Digest : string;
  Files : gomap bytes
}.

Definition CreateClient (env : Env) (registry : string) (creds : bytes)
  : exec Repository :=
  match NewRepository env registry with
  | Some err => Panic err
  | None =>
      if bool_decide (0 < length creds) then
        match NewMemoryStoreFromDockerConfig env creds with
        | Some err => Panic err
        | None => Ret (mkRepository registry (mkClient (Some creds)))
        end
      else Ret (mkRepository registry (mkClient None))
  end.

Definition GetDigest (env : Env) (registry tag : string) (creds : bytes)
  : exec string :=
  match CreateClient env registry creds with
  | Panic v => Panic v
  | Ret repo =>
      match Fetch env repo tag with
      | inl err => Panic err
      | inr d => Ret d
      end
  end.

(** The loop of [GetFilesContentBinary] over the directory entries;
    [files] is the map filled so far. *)
Fixpoint readEntries (entries : list DirEntry) (files : gmap string bytes)
  : gomap bytes * option error :=
  match entries with
  | [] => (Some files, None)
  | entry :: rest =>
      if IsDir entry then readEntries rest files
      else
        match ReadFile entry with
        | inl err =>
            (None, Some (ErrWrapped ("fehler beim Lesen der Datei "
                                       ++ entry_Name entry) err))
        | inr content =>
            readEntries rest (<[entry_Name entry := content]> files)
        end
  end.

(** [dir] is what [os.ReadDir(dirPath)] returns. *)
Definition GetFilesContentBinary (dir : error + list DirEntry)
  : gomap bytes * option error :=
  match dir with
  | inl err =>
      (None, Some (ErrWrapped "fehler beim Lesen des Verzeichnisses" err))
  | inr entries => readEntries entries ∅
  end.

Definition GetFiles (env : Env) (registy tag : string) (creds : bytes)
  : exec Filemap :=
  match MkdirTemp env with
  | inl err => Panic err
  | inr tmpdir =>
      match file_New env tmpdir with
      | Some err => Panic err
      | None =>
          match CreateClient env registy creds with
          | Panic v => Panic v
          | Ret repo =>
              match Copy env repo tag with
              | inl err => Panic err
              | inr (manifestDigest, dir) =>
                  (* the error of GetFilesContentBinary is dropped *)
                  let '(filesMap, _) := GetFilesContentBinary dir in
                  Ret (mkFilemap manifestDigest filesMap)
              end
          end
      end
  end.

End orasclient.

(** ** package v1aplha1 and the Kubernetes objects the controller touches *)

(** [corev1.SecretReference] *)
Record SecretReference : Type := mkSecretReference {
  ref_Name : string;
  ref_Namespace : string
}.

(** [OCISecretSpec]; [Files] is [Spec.Sync.Files]. *)
Record OCISecretSpec : Type := mkOCISecretSpec {
  OrasArtefact : string;
  ArtefactRegistry : string;
  Files : list string;
  ArtefactPullSecret : SecretReference;
  TargetSecret : SecretReference
}.

(** [OCISecret]: the fields of TypeMeta and ObjectMeta the controller
    reads, and the spec. *)
Record OCISecret : Type := mkOCISecret {
  APIVersion : string;
  Kind : string;
  Name : string;
  UID : string;
  Spec : OCISecretSpec
}.

(** [metav1.OwnerReference]; the two [*bool] fields are options. *)
Record OwnerReference : Type := mkOwnerReference {
  owner_APIVersion : string;
  owner_Kind : string;
  owner_Name : string;
  owner_UID : string;
  Controller : option bool;
  BlockOwnerDeletion : option bool
}.

(** [v1core.Secret] *)
Record Secret : Type := mkSecret {
  secret_Name : string;
  secret_Namespace : string;
  Annotations : gomap string;
  OwnerReferences : list OwnerReference;
  Data : gomap bytes
}.

(** [types.NamespacedName], as the pair (namespace, name). *)
Abbreviation NamespacedName := (string * string)%type.

(** ** The API server behind [client.Client] *)

Inductive Event : Type :=
  | EvGetOCISecret (key : NamespacedName)
  | EvGetSecret (key : NamespacedName)
  | EvCreate (obj : Secret)
  | EvUpdate (obj : Secret)
  | EvGetDigest (registry tag : string) (creds : bytes)
  | EvGetFiles (registry tag : string) (creds : bytes).

(** [faults] schedules the API calls to come: the n-th call fails with
    [ErrAPI msg] when the n-th entry is [Some msg], and is served from the
    stores otherwise (also once the schedule is used up). A scheduled
    failure is never a not-found error. *)
Record Cluster : Type := mkCluster {
  ocisecrets : gmap NamespacedName OCISecret;
  secrets : gmap NamespacedName Secret;
  faults : list (option string);
  trace : list Event
}.

Definition record (ev : Event) (c : Cluster) : Cluster :=
  mkCluster (ocisecrets c) (secrets c) (faults c) (trace c ++ [ev]).

Definition next_fault (c : Cluster) : Cluster * option error :=
  match faults c with
  | [] => (c, None)
  | f :: rest =>
      (mkCluster (ocisecrets c) (secrets c) rest (trace c), ErrAPI <$> f)
  end.

Definition set_secret (key : NamespacedName) (obj : Secret) (c : Cluster)
  : Cluster :=
  mkCluster (ocisecrets c) (<[key := obj]> (secrets c)) (faults c) (trace c).

Definition secret_key (obj : Secret) : NamespacedName :=
  (secret_Namespace obj, secret_Name obj).

(** [r.Get(ctx, key, &OCISecret{})] *)
Definition Get_OCISecret (key : NamespacedName) (c : Cluster)
  : Cluster * (error + OCISecret) :=
  let '(c, f) := next_fault (record (EvGetOCISecret key) c) in
  match f with
  | Some err => (c, inl err)
  | None =>
      match ocisecrets c !! key with
      | None => (c, inl (ErrNotFound key.2))
      | Some obj => (c, inr obj)
      end
  end.

(** [r.Get(ctx, key, &v1core.Secret{})] *)
Definition Get_Secret (key : NamespacedName) (c : Cluster)
  : Cluster * (error + Secret) :=
  let '(c, f) := next_fault (record (EvGetSecret key) c) in
  match f with
  | Some err => (c, inl err)
  | None =>
      match secrets c !! key with
      | None => (c, inl (ErrNotFound key.2))
      | Some obj => (c, inr obj)
      end
  end.

(** [r.Create(ctx, obj)] *)
Definition Create (obj : Secret) (c : Cluster) : Cluster * option error :=
  let '(c, f) := next_fault (record (EvCreate obj) c) in
  match f with
  | Some err => (c, Some err)
  | None =>
      match secrets c !! secret_key obj with
      | Some _ => (c, Some (ErrAlreadyExists (secret_Name obj)))
      | None => (set_secret (secret_key obj) obj c, None)
      end
  end.

(** [r.Update(ctx, obj)] *)
Definition Update (obj : Secret) (c : Cluster) : Cluster * option error :=
  let '(c, f) := next_fault (record (EvUpdate obj) c) in
  match f with
  | Some err => (c, Some err)
  | None =>
      match secrets c !! secret_key obj with
      | None => (c, Some (ErrNotFound (secret_Name obj)))
      | Some _ => (set_secret (secret_key obj) obj c, None)
      end
  end.

(** ** package controller *)

Module controller.

(** [time.Duration], in nanoseconds. *)
Definition Second : Z := 1000000000.

(** [ctrl.Result] *)
Record Result : Type := mkResult {
  Requeue : bool;
  RequeueAfter : Z
}.

(** [ctrl.Result{}] *)
Definition emptyResult : Result := mkResult false 0.

(** What a call of [Reconcile] comes to: it returns [(res, err)], or it
    panics (there is no [recover] in the package). *)
Inductive outcome : Type :=
  | Done (res : Result) (err : option error)
  | Panicked (v : error).

(** A part of the function body either falls through with a value or
    executes a [return]. *)
Inductive flow (A : Type) : Type :=
  | Continue (a : A)
  | Return (res : Result) (err : option error).
Arguments Continue {A} a.
Arguments Return {A} res err.

Definition rev : string := "OCISecret.operator.rev".

(** The loop over [OCIPullSecret.Data] of step 2. *)
Definition dockerconfigjson (data : gomap bytes) : string :=
  match data with
  | None => ""
  | Some g =>
      map_fold
        (fun key value secretData =>
           if bool_decide (key = ".dockerconfigjson")
           then String.string_of_list_byte value
           else secretData) "" g
  end.

(** Step 2 of [Reconcile]: the pull secret. *)
Definition getPullSecret (OCIsecret : OCISecret) (c : Cluster)
  : Cluster * flow string :=
  let ref := ArtefactPullSecret (Spec OCIsecret) in
  if bool_decide (ref_Name ref = "") || bool_decide (ref_Namespace ref = "")
  then (c, Continue "")
  else
    let '(c, r) := Get_Secret (ref_Namespace ref, ref_Name ref) c in
    match r with
    | inl err => (c, Return emptyResult (Some err))
    | inr OCIPullSecret =>
        let secretData := dockerconfigjson (Data OCIPullSecret) in
        if bool_decide (secretData = "")
        then (c, Return emptyResult None)
        else (c, Continue secretData)
    end.

(** The Secret built in step 4a when the target does not exist. *)
Definition newTargetSecret (OCIsecret : OCISecret) : Secret :=
  {| secret_Name := ref_Name (TargetSecret (Spec OCIsecret));
     secret_Namespace := ref_Namespace (TargetSecret (Spec OCIsecret));
     Annotations := Some {[ rev := "00000" ]};
     OwnerReferences :=
       [ {| owner_APIVersion := APIVersion OCIsecret;
            owner_Kind := Kind OCIsecret;
            owner_Name := Name OCIsecret;
            owner_UID := UID OCIsecret;
            Controller := Some true;
            BlockOwnerDeletion := Some true |} ];
     Data := None |}.

(** The condition of the [if] of step 4b. *)
Definition needsUpdate (TargetSecret : Secret) (currentDigest : string)
    (files : list string) : bool :=
  bool_decide (gomap_index (Annotations TargetSecret) rev ≠ currentDigest)
  || bool_decide (gomap_len (Data TargetSecret) ≠ length files).

(** The filter step: [FilterMapInPlace] is called only for a non-empty
    [Spec.Sync.Files]. *)
Definition filterFiles (content : gomap bytes) (files : list string)
  : gomap bytes :=
  if bool_decide (0 < length files)
  then utils.FilterMapInPlace content files
  else content.

(** The body of the [if] of step 4b, and step 5. *)
Definition updateTarget (env : orasclient.Env) (OCIsecret : OCISecret)
    (secretData : string) (TargetSecret : Secret) (c : Cluster)
  : Cluster * outcome :=
  let spec := Spec OCIsecret in
  let creds := String.list_byte_of_string secretData in
  let c := record (EvGetFiles (ArtefactRegistry spec) (OrasArtefact spec)
                     creds) c in
  match orasclient.GetFiles env (ArtefactRegistry spec) (OrasArtefact spec)
          creds with
  | Panic v => (c, Panicked v)
  | Ret content =>
      let files := filterFiles (orasclient.Files content) (Files spec) in
      match Annotations TargetSecret with
      | None => (c, Panicked (ErrRuntime "assignment to entry in nil map"))
      | Some annotations =>
          let TargetSecret :=
            {| secret_Name := secret_Name TargetSecret;
               secret_Namespace := secret_Namespace TargetSecret;
               Annotations :=
                 Some (<[rev := orasclient.Digest content]> annotations);
               OwnerReferences := OwnerReferences TargetSecret;
               Data := files |} in
          let '(c, err) := Update TargetSecret c in
          match err with
          | Some err => (c, Done emptyResult (Some err))
          | None => (c, Done (mkResult false (60 * Second)) None)
          end
      end
  end.

(** Steps 3 to 5 of [Reconcile]. *)
Definition syncTarget (env : orasclient.Env) (OCIsecret : OCISecret)
    (secretData : string) (c : Cluster) : Cluster * outcome :=
  let spec := Spec OCIsecret in
  let creds := String.list_byte_of_string secretData in
  let c := record (EvGetDigest (ArtefactRegistry spec) (OrasArtefact spec)
                     creds) c in
  match orasclient.GetDigest env (ArtefactRegistry spec) (OrasArtefact spec)
          creds with
  | Panic v => (c, Panicked v)
  | Ret currentDigest =>
      let key := (ref_Namespace (TargetSecret spec),
                  ref_Name (TargetSecret spec)) in
      let '(c, r) := Get_Secret key c in
      let '(c, failed) :=
        match r with
        | inl err =>
            if IsNotFound err
            then (* the error of Create is only logged *)
                 (fst (Create (newTargetSecret OCIsecret) c), None)
            else (c, Some err)
        | inr _ => (c, None)
        end in
      match failed with
      | Some err => (c, Done emptyResult (Some err))
      | None =>
          let '(c, r) := Get_Secret key c in
          match r with
          | inl err => (c, Done emptyResult (Some err))
          | inr TargetSecret =>
              if needsUpdate TargetSecret currentDigest (Files spec)
              then updateTarget env OCIsecret secretData TargetSecret c
              else (c, Done (mkResult false (60 * Second)) None)
          end
      end
  end.

Definition Reconcile (env : orasclient.Env) (req : NamespacedName)
    (c : Cluster) : Cluster * outcome :=
  let '(c, r) := Get_OCISecret req c in
  match r with
  | inl err =>
      if IsNotFound err
      then (c, Done emptyResult None)
      else (c, Done emptyResult (Some err))
  | inr OCIsecret =>
      let '(c, step2) := getPullSecret OCIsecret c in
      match step2 with
      | Return res err => (c, Done res err)
      | Continue secretData => syncTarget env OCIsecret secretData c
      end
  end.

End controller.

(** The key set of a Go map; the nil map has none. *)
Definition gomap_keys {V} (m : gomap V) : gset string :=
  match m with
  | None => ∅
  | Some g => dom g
  end.

(** ** Notions used to state the properties *)

(** A real digest has the form [<algorithm>:<hex>]; the encoded part is
    left unconstrained, the colon is what matters here. *)
Definition digest_form (d : string) : Prop :=
  ∃ algorithm hex, d = algorithm ++ ":" ++ hex.

Fixpoint has_colon (s : string) : bool :=
  match s with
  | EmptyString => false
  | String a rest => bool_decide (a = ":"%char) || has_colon rest
  end.

(** What an API call does to the cluster apart from the stores: one entry
    of the schedule is used up and the call is on the trace. *)
Definition after_call (ev : Event) (c : Cluster) : Cluster :=
  mkCluster (ocisecrets c) (secrets c) (tail (faults c)) (trace c ++ [ev]).

(** The API server keeps every Secret under its own namespace and name. *)
Definition stored_under_own_name (c : Cluster) : Prop :=
  ∀ key obj, secrets c !! key = Some obj → secret_key obj = key.

(** Calls that fetch the artifact content or write a Secret. *)
Definition is_write (ev : Event) : bool :=
  match ev with
  | EvCreate _ | EvUpdate _ | EvGetFiles _ _ _ => true
  | _ => false
  end.

(** The events a pass added to the trace, from the clusters before and
    after it. *)
Definition new_events (before after : Cluster) : list Event :=
  drop (length (trace before)) (trace after).

(** From [c] to [c'] nothing was written and no content was fetched: the
    stores are the same and the trace grew by reads only. *)
Definition quiet_step (c c' : Cluster) : Prop :=
  ocisecrets c' = ocisecrets c
  ∧ secrets c' = secrets c
  ∧ ∃ evs, trace c' = (trace c ++ evs)%list
           ∧ Forall (fun ev => is_write ev = false) evs.

(** [spec.ArtefactPullSecret] names a Secret. *)
Definition pull_secret_set (o : OCISecret) : Prop :=
  ref_Name (ArtefactPullSecret (Spec o)) ≠ ""
  ∧ ref_Namespace (ArtefactPullSecret (Spec o)) ≠ "".

Definition pull_secret_key (o : OCISecret) : NamespacedName :=
  (ref_Namespace (ArtefactPullSecret (Spec o)),
   ref_Name (ArtefactPullSecret (Spec o))).

Definition target_key (o : OCISecret) : NamespacedName :=
  (ref_Namespace (TargetSecret (Spec o)), ref_Name (TargetSecret (Spec o))).

(** What a pass leaves behind when it returns a nil error from step 5:
    a target annotated with the digest [d]. *)
Definition target_annotated (o : OCISecret) (d : string) (c c' : Cluster)
  : Prop :=
  ocisecrets c' = ocisecrets c
  ∧ ∃ t, secrets c' !! target_key o = Some t
         ∧ gomap_index (Annotations t) controller.rev = d.

(** The two situations in which [Reconcile] returns [ctrl.Result{}, nil]:
    the OCISecret is gone, or its pull secret holds no Docker config. *)
Definition ends_early (req : NamespacedName) (c : Cluster) : Prop :=
  ocisecrets c !! req = None
  ∨ ∃ o ps, ocisecrets c !! req = Some o
            ∧ pull_secret_set o
            ∧ secrets c !! pull_secret_key o = Some ps
            ∧ controller.dockerconfigjson (Data ps) = "".

(** The registry answers every digest request and every copy of the
    artifact of [o] with the digest [d]. *)
Definition digest_unchanged (env : orasclient.Env) (o : OCISecret)
    (d : string) : Prop :=
  (∀ creds d',
     orasclient.GetDigest env (ArtefactRegistry (Spec o))
       (OrasArtefact (Spec o)) creds = Ret d' → d' = d)
  ∧ (∀ creds content,
       orasclient.GetFiles env (ArtefactRegistry (Spec o))
         (OrasArtefact (Spec o)) creds = Ret content →
       orasclient.Digest content = d).

(** The pass did not come to a return with a nil error: it returned an
    error or it panicked. *)
Definition failed (out : controller.outcome) : bool :=
  match out with
  | controller.Done _ None => false
  | _ => true
  end.

(** The names of the regular files of a directory listing. *)
Definition regular_names (entries : list orasclient.DirEntry) : list string :=
  orasclient.entry_Name
    <$> filter (fun e => orasclient.IsDir e = false) entries.

(** All that steps 3 to 5 can do to the stores: the OCISecrets stay, the
    placeholder target may be created where there was none, and then the
    target read back may be replaced by an object of the same name, which
    happens only in a pass that returns the 60 seconds. *)
Definition pass_effect (o : OCISecret) (c c' : Cluster)
    (out : controller.outcome) : Prop :=
  ocisecrets c' = ocisecrets c
  ∧ ∃ base : gmap NamespacedName Secret,
      (base = secrets c
       ∨ (secrets c !! target_key o = None
          ∧ base = <[target_key o := controller.newTargetSecret o]> (secrets c)))
      ∧ (secrets c' = base
         ∨ ∃ t t', base !! target_key o = Some t
                   ∧ secret_key t' = secret_key t
                   ∧ secrets c' = <[secret_key t := t']> base
                   ∧ out = controller.Done
                             (controller.mkResult false (60 * controller.Second))
                             None).

(** Every content the registry can return for [o] passes the count check
    of step 4b once filtered. *)
Definition content_counts (env : orasclient.Env) (o : OCISecret) : Prop :=
  ∀ creds content,
    orasclient.GetFiles env (ArtefactRegistry (Spec o))
      (OrasArtefact (Spec o)) creds = Ret content →
    gomap_len (controller.filterFiles (orasclient.Files content)
                 (Files (Spec o)))
    = length (Files (Spec o)).

(** ** Concrete clusters and registries *)

Module examples.
Import controller.

Definition digest1 : string := "sha256:ab12".

Definition a_txt : orasclient.DirEntry := orasclient.mkDirEntry "a.txt" false (inr [x61]).
Definition b_txt : orasclient.DirEntry := orasclient.mkDirEntry "b.txt" false (inr [x62]).

(** A registry holding one artifact with the files a.txt and b.txt. *)
Definition env_ok : orasclient.Env :=
  {| orasclient.NewRepository := fun _ => None;
     orasclient.NewMemoryStoreFromDockerConfig := fun _ => None;
     orasclient.Fetch := fun _ _ => inr digest1;
     orasclient.MkdirTemp := inr "/tmp/oras123";
     orasclient.file_New := fun _ => None;
     orasclient.Copy := fun _ _ => inr (digest1, inr [a_txt; b_txt]) |}.

(** The registry address does not parse. *)
Definition env_bad_address : orasclient.Env :=
  {| orasclient.NewRepository := fun _ => Some (ErrLib "invalid reference");
     orasclient.NewMemoryStoreFromDockerConfig := fun _ => None;
     orasclient.Fetch := fun _ _ => inr digest1;
     orasclient.MkdirTemp := inr "/tmp/oras123";
     orasclient.file_New := fun _ => None;
     orasclient.Copy := fun _ _ => inr (digest1, inr [a_txt; b_txt]) |}.

(** The transfer of the artifact fails. *)
Definition env_copy_fails : orasclient.Env :=
  {| orasclient.NewRepository := fun _ => None;
     orasclient.NewMemoryStoreFromDockerConfig := fun _ => None;
     orasclient.Fetch := fun _ _ => inr digest1;
     orasclient.MkdirTemp := inr "/tmp/oras123";
     orasclient.file_New := fun _ => None;
     orasclient.Copy := fun _ _ => inl (ErrLib "connection reset") |}.

Definition req1 : NamespacedName := ("", "sync1").

Definition ocisecret (files : list string) (pull : SecretReference)
  : OCISecret :=
  {| APIVersion := "oci-sync.brtrm.de/v1aplha1";
     Kind := "OCISecret";
     Name := "sync1";
     UID := "uid-1";
     Spec := {| OrasArtefact := "v1";
                ArtefactRegistry := "registry.example/conf";
                Files := files;
                ArtefactPullSecret := pull;
                TargetSecret := mkSecretReference "target" "apps" |} |}.

Definition anonymous : SecretReference := mkSecretReference "" "".
Definition pull_ref : SecretReference := mkSecretReference "pull" "apps".

(** A target as a finished sync leaves it. *)
Definition synced_target (data : gmap string bytes) : Secret :=
  {| secret_Name := "target";
     secret_Namespace := "apps";
     Annotations := Some {[ rev := digest1 ]};
     OwnerReferences := OwnerReferences (newTargetSecret (ocisecret [] anonymous));
     Data := Some data |}.

(** A pull secret without the key .dockerconfigjson. *)
Definition pull_without_key : Secret :=
  {| secret_Name := "pull";
     secret_Namespace := "apps";
     Annotations := None;
     OwnerReferences := [];
     Data := Some {[ "username" := [x75] ]} |}.

(** A new OCISecret, no target yet. *)
Definition cluster_new (files : list string) : Cluster :=
  {| ocisecrets := {[ req1 := ocisecret files anonymous ]};
     secrets := ∅;
     faults := [];
     trace := [] |}.

(** "Sync all" ([Files] empty) with a target that is up to date. *)
Definition cluster_sync_all : Cluster :=
  {| ocisecrets := {[ req1 := ocisecret [] anonymous ]};
     secrets := {[ ("apps", "target") :=
                     synced_target {[ "a.txt" := [x61]; "b.txt" := [x62] ]} ]};
     faults := [];
     trace := [] |}.

(** The pull secret exists but holds no Docker config. *)
Definition cluster_no_dockerconfig : Cluster :=
  {| ocisecrets := {[ req1 := ocisecret ["a.txt"] pull_ref ]};
     secrets := {[ ("apps", "pull") := pull_without_key;
                   ("apps", "target") :=
                     synced_target {[ "a.txt" := [x00] ]} ]};
     faults := [];
     trace := [] |}.

(** A pull-secret reference with a name and no namespace. *)
Definition half_ref : SecretReference := mkSecretReference "pull" "".

Definition cluster_half_ref : Cluster :=
  {| ocisecrets := {[ req1 := ocisecret ["a.txt"] half_ref ]};
     secrets := {[ ("apps", "pull") := pull_without_key ]};
     faults := [];
     trace := [] |}.

(** No OCISecret at all. *)
Definition cluster_deleted : Cluster :=
  {| ocisecrets := ∅; secrets := ∅; faults := []; trace := [] |}.

(** A staging directory with a subdirectory and a file that cannot be
    read. *)
Definition sub_dir : orasclient.DirEntry :=
  orasclient.mkDirEntry "sub" true (inl (ErrLib "is a directory")).
Definition locked_txt : orasclient.DirEntry :=
  orasclient.mkDirEntry "locked.txt" false (inl (ErrLib "permission denied")).

(** The transfer succeeds, reading the staged files back does not. *)
Definition env_read_fails : orasclient.Env :=
  {| orasclient.NewRepository := fun _ => None;
     orasclient.NewMemoryStoreFromDockerConfig := fun _ => None;
     orasclient.Fetch := fun _ _ => inr digest1;
     orasclient.MkdirTemp := inr "/tmp/oras123";
     orasclient.file_New := fun _ => None;
     orasclient.Copy := fun _ _ => inr (digest1, inr [a_txt; locked_txt; b_txt]) |}.

(** A pull secret with a Docker config, and one whose Docker config is
    empty. *)
Definition pull_with_key : Secret :=
  {| secret_Name := "pull";
     secret_Namespace := "apps";
     Annotations := None;
     OwnerReferences := [];
     Data := Some {[ ".dockerconfigjson" := [x7b; x7d] ]} |}.

Definition pull_with_empty_key : Secret :=
  {| secret_Name := "pull";
     secret_Namespace := "apps";
     Annotations := None;
     OwnerReferences := [];
     Data := Some {[ ".dockerconfigjson" := [] ]} |}.

(** An OCISecret with a pull secret, and the Secrets [objs]. *)
Definition cluster_with_pull (files : list string)
    (objs : gmap NamespacedName Secret) : Cluster :=
  {| ocisecrets := {[ req1 := ocisecret files pull_ref ]};
     secrets := objs;
     faults := [];
     trace := [] |}.

(** An OCISecret without pull secret, and the Secrets [objs]; [schedule]
    is the fault schedule. *)
Definition cluster_with (files : list string)
    (objs : gmap NamespacedName Secret) (schedule : list (option string))
  : Cluster :=
  {| ocisecrets := {[ req1 := ocisecret files anonymous ]};
     secrets := objs;
     faults := schedule;
     trace := [] |}.

(** A target made by somebody else: stale digest, a second annotation, old
    data, no owner. *)
Definition stale_target : Secret :=
  {| secret_Name := "target";
     secret_Namespace := "apps";
     Annotations := Some {[ rev := "sha256:0000"; "team" := "platform" ]};
     OwnerReferences := [];
     Data := Some {[ "old.txt" := [x6f] ]} |}.

(** A target without any annotation. *)
Definition bare_target : Secret :=
  {| secret_Name := "target";
     secret_Namespace := "apps";
     Annotations := None;
     OwnerReferences := [];
     Data := None |}.

End examples.

(** * Properties *)

(** ** FilterMapInPlace *)

Section filter.
Context {V : Type}.
Implicit Types (g : gmap string V) (m : gomap V) (L : list string).

Lemma allowedSet_lookup L key :
  is_Some (utils.allowedSet L !! key) ↔ key ∈ L.
Proof.
  unfold utils.allowedSet.
  assert (∀ s : gmap string unit,
    is_Some (foldl (fun s k => <[k := tt]> s) s L !! key)
    ↔ key ∈ L ∨ is_Some (s !! key)) as Hgen.
  { induction L as [|k L IH]; intros s; simpl.
    - rewrite elem_of_nil. tauto.
    - rewrite IH, elem_of_cons, lookup_insert_is_Some.
      destruct (decide (k = key)) as [->|Hne]; [tauto|].
      split; intros [H|H]; auto.
      + destruct H as [H|[_ H]]; [congruence|auto].
      + destruct H as [H|H]; [congruence|auto]. }
  rewrite Hgen, lookup_empty, is_Some_alt. tauto.
Qed.

(** The deleting loop, started on any map [g0] and ranging over [g]. *)
Lemma filter_loop_lookup (allowed : gmap string unit) g0 g key :
  map_fold (fun k (_ : V) acc =>
              match allowed !! k with
              | Some _ => acc
              | None => delete k acc
              end) g0 g !! key
  = match g !! key, allowed !! key with
    | Some _, None => None
    | _, _ => g0 !! key
    end.
Proof.
  revert key.
  apply (map_fold_weak_ind (fun r g' => ∀ key,
    r !! key = match g' !! key, allowed !! key with
               | Some _, None => None
               | _, _ => g0 !! key
               end)); clear g.
  - intros key. by rewrite lookup_empty.
  - intros i x g r Hi IH key.
    destruct (decide (i = key)) as [->|Hne].
    + rewrite lookup_insert_eq.
      destruct (allowed !! key) eqn:Hal.
      * rewrite IH, Hi. done.
      * by rewrite lookup_delete_eq.
    + rewrite lookup_insert_ne by done.
      destruct (allowed !! i).
      * apply IH.
      * rewrite lookup_delete_ne by done. apply IH.
Qed.

Lemma FilterMapInPlace_lookup m L key :
  gomap_lookup (utils.FilterMapInPlace m L) key
  = if decide (key ∈ L) then gomap_lookup m key else None.
Proof.
  destruct m as [g|]; simpl; [|by case_decide].
  rewrite filter_loop_lookup.
  pose proof (allowedSet_lookup L key) as Hal.
  destruct (g !! key) eqn:Hg, (utils.allowedSet L !! key) eqn:Ha;
    case_decide; try done.
  - exfalso. apply H, Hal. eauto.
  - exfalso. apply Hal in H. by destruct H.
Qed.

Lemma elem_of_gomap_keys m key :
  key ∈ gomap_keys m ↔ is_Some (gomap_lookup m key).
Proof.
  destruct m as [g|]; simpl.
  - apply elem_of_dom.
  - rewrite is_Some_alt. set_solver.
Qed.

Lemma FilterMapInPlace_keys m L :
  gomap_keys (utils.FilterMapInPlace m L) = gomap_keys m ∩ list_to_set L.
Proof.
  apply set_eq. intros key.
  rewrite elem_of_intersection, !elem_of_gomap_keys, elem_of_list_to_set,
    FilterMapInPlace_lookup.
  case_decide; [tauto|]. rewrite is_Some_alt. tauto.
Qed.

End filter.

(** C8. For every file map [M] and every non-empty allow-list [L], the key
    set of the filtered map is [keys(M) ∩ set(L)], and every retained key
    still maps to the bytes it had in [M]. *)
Theorem FilterMapInPlace_restricts (M : gomap bytes) (L : list string) :
  L ≠ [] →
  gomap_keys (utils.FilterMapInPlace M L) = gomap_keys M ∩ list_to_set L
  ∧ ∀ key, key ∈ gomap_keys (utils.FilterMapInPlace M L) →
      gomap_lookup (utils.FilterMapInPlace M L) key = gomap_lookup M key.
Proof.
  intros _. split; [apply FilterMapInPlace_keys|].
  intros key. rewrite elem_of_gomap_keys, FilterMapInPlace_lookup.
  case_decide; [done|]. by intros [? ?].
Qed.

Lemma FilterMapInPlace_restricts_witness :
  let M : gomap bytes := Some {[ "a.txt" := [x61]; "b.txt" := [x62] ]} in
  let L := ["a.txt"] in
  L ≠ []
  ∧ gomap_keys (utils.FilterMapInPlace M L) = gomap_keys M ∩ list_to_set L
  ∧ ∀ key, key ∈ gomap_keys (utils.FilterMapInPlace M L) →
      gomap_lookup (utils.FilterMapInPlace M L) key = gomap_lookup M key.
Proof.
  intros M L. split; [discriminate|].
  apply (FilterMapInPlace_restricts M L). discriminate.
Defined.



(** ** The ORAS client *)

Section orasclient_facts.
Import orasclient.
Variable env : Env.

Lemma CreateClient_cases registry creds :
  match CreateClient env registry creds with
  | Ret repo =>
      NewRepository env registry = None
      ∧ Reference repo = registry
      ∧ ((creds = [] ∧ Credential (repo_Client repo) = None)
         ∨ (creds ≠ [] ∧ NewMemoryStoreFromDockerConfig env creds = None
            ∧ Credential (repo_Client repo) = Some creds))
  | Panic v =>
      NewRepository env registry = Some v
      ∨ (creds ≠ [] ∧ NewMemoryStoreFromDockerConfig env creds = Some v)
  end.
Proof.
  unfold CreateClient.
  destruct (NewRepository env registry) as [err|]; [by left|].
  destruct creds as [|b creds]; simpl.
  - split; [done|]. split; [done|]. by left.
  - destruct (NewMemoryStoreFromDockerConfig env (b :: creds)) eqn:Hst.
    + right. by split.
    + split; [done|]. split; [done|]. right. by split.
Qed.

Lemma GetDigest_cases registry tag creds :
  match GetDigest env registry tag creds with
  | Ret d =>
      ∃ repo, CreateClient env registry creds = Ret repo
              ∧ Fetch env repo tag = inr d
  | Panic v =>
      CreateClient env registry creds = Panic v
      ∨ ∃ repo, CreateClient env registry creds = Ret repo
                ∧ Fetch env repo tag = inl v
  end.
Proof.
  unfold GetDigest.
  destruct (CreateClient env registry creds) as [repo|v]; [|by left].
  destruct (Fetch env repo tag) as [err|d] eqn:Hf; [right|]; eauto.
Qed.

Lemma GetFiles_cases registry tag creds :
  match GetFiles env registry tag creds with
  | Ret content =>
      ∃ repo dir, CreateClient env registry creds = Ret repo
                  ∧ Copy env repo tag = inr (Digest content, dir)
  | Panic v =>
      MkdirTemp env = inl v
      ∨ (∃ tmpdir, MkdirTemp env = inr tmpdir
                   ∧ file_New env tmpdir = Some v)
      ∨ CreateClient env registry creds = Panic v
      ∨ ∃ repo, CreateClient env registry creds = Ret repo
                ∧ Copy env repo tag = inl v
  end.
Proof.
  unfold GetFiles.
  destruct (MkdirTemp env) as [err|tmpdir]; [by left|].
  destruct (file_New env tmpdir) as [err|] eqn:Hnew; [right; left; eauto|].
  destruct (CreateClient env registry creds) as [repo|v];
    [|right; right; by left].
  destruct (Copy env repo tag) as [err|[d dir]] eqn:Hcopy.
  - right; right; right. eauto.
  - destruct (GetFilesContentBinary dir). simpl. eauto.
Qed.

(** The reading loop is all or nothing: with an error the map is nil, and
    without one the map has grown by exactly the regular files. *)
Lemma readEntries_cases entries files0 :
  match readEntries entries files0 with
  | (files, Some err) =>
      files = None
      ∧ ∃ entry cause,
          entry ∈ entries ∧ IsDir entry = false
          ∧ ReadFile entry = inl cause
          ∧ err = ErrWrapped ("fehler beim Lesen der Datei "
                                ++ entry_Name entry) cause
  | (files, None) =>
      ∃ g, files = Some g
        ∧ (∀ entry, entry ∈ entries → IsDir entry = false →
             ∃ content, ReadFile entry = inr content
                        ∧ is_Some (g !! entry_Name entry))
        ∧ (∀ name content, g !! name = Some content →
             files0 !! name = Some content
             ∨ ∃ entry, entry ∈ entries ∧ IsDir entry = false
                        ∧ entry_Name entry = name
                        ∧ ReadFile entry = inr content)
        ∧ (∀ name, is_Some (files0 !! name) → is_Some (g !! name))
  end.
Proof.
  revert files0. induction entries as [|entry rest IH]; intros files0; simpl.
  - exists files0. split; [done|]. split.
    + intros entry Hin. by apply elem_of_nil in Hin.
    + split; [by left | done].
  - destruct (IsDir entry) eqn:Hdir.
    + specialize (IH files0).
      destruct (readEntries rest files0) as [files [err|]].
      * destruct IH as (-> & e & cause & Hin & ?).
        split; [done|]. exists e, cause. split; [by right | done].
      * destruct IH as (g & -> & Hall & Hfrom & Hkeep).
        exists g. split; [done|]. split; [|split; [|done]].
        -- intros e [->|Hin]%elem_of_cons Hreg; [congruence|eauto].
        -- intros name content Hg.
           destruct (Hfrom _ _ Hg) as [?|(e & Hin & ?)]; [by left|].
           right. exists e. split; [by right | done].
    + destruct (ReadFile entry) as [cause|content] eqn:Hread.
      * split; [done|]. exists entry, cause. split; [by left | done].
      * specialize (IH (<[entry_Name entry := content]> files0)).
        destruct (readEntries rest _) as [files [err|]].
        -- destruct IH as (-> & e & cause & Hin & ?).
           split; [done|]. exists e, cause. split; [by right | done].
        -- destruct IH as (g & -> & Hall & Hfrom & Hkeep).
           exists g. split; [done|]. split; [|split].
           ++ intros e [->|Hin]%elem_of_cons Hreg; [|eauto].
              exists content. split; [done|].
              apply Hkeep. rewrite lookup_insert_eq. eauto.
           ++ intros name c Hg.
              destruct (Hfrom _ _ Hg) as [Hins|(e & Hin & ?)].
              ** apply lookup_insert_Some in Hins
                   as [[<- <-]|[? ?]]; [|by left].
                 right. exists entry. split; [by left | done].
              ** right. exists e. split; [by right | done].
           ++ intros name Hsome. apply Hkeep.
              rewrite lookup_insert_is_Some.
              destruct (decide (entry_Name entry = name)); auto.
Qed.

End orasclient_facts.

(** C7, as stated, fails: a failing transfer is not reported as an error
    value, [GetFiles] panics. *)
Lemma GetFiles_panics_counterexample :
  orasclient.GetFiles examples.env_copy_fails "registry.example/conf" "v1" []
  = Panic (ErrLib "connection reset").
Proof. vm_compute. reflexivity. Qed.

(** Every way through [GetFiles], in the order of its calls. *)
Lemma GetFiles_cases_full
    (env : orasclient.Env) (registry tag : string) (creds : bytes) :
  match orasclient.GetFiles env registry tag creds with
  | Ret content =>
      ∃ tmpdir repo staged,
        orasclient.MkdirTemp env = inr tmpdir
        ∧ orasclient.file_New env tmpdir = None
        ∧ orasclient.CreateClient env registry creds = Ret repo
        ∧ orasclient.Copy env repo tag
          = inr (orasclient.Digest content, staged)
        ∧ orasclient.Files content
          = (orasclient.GetFilesContentBinary staged).1
  | Panic v =>
      orasclient.MkdirTemp env = inl v
      ∨ ∃ tmpdir,
          orasclient.MkdirTemp env = inr tmpdir
          ∧ (orasclient.file_New env tmpdir = Some v
             ∨ (orasclient.file_New env tmpdir = None
                ∧ (orasclient.CreateClient env registry creds = Panic v
                   ∨ ∃ repo,
                       orasclient.CreateClient env registry creds = Ret repo
                       ∧ orasclient.Copy env repo tag = inl v)))
  end.
Proof.
  unfold orasclient.GetFiles.
  destruct (orasclient.MkdirTemp env) as [err|tmpdir]; [by left|].
  destruct (orasclient.file_New env tmpdir) as [err|] eqn:Hnew.
  { right. exists tmpdir. split; [done|]. by left. }
  destruct (orasclient.CreateClient env registry creds) as [repo|v].
  - destruct (orasclient.Copy env repo tag) as [err|[d staged]] eqn:Hcopy.
    + right. exists tmpdir. split; [done|]. right. split; [done|].
      right. by exists repo.
    + destruct (orasclient.GetFilesContentBinary staged) as [files e] eqn:Hr.
      exists tmpdir, repo, staged. simpl. by rewrite Hr.
  - right. exists tmpdir. split; [done|]. right. split; [done|]. by left.
Qed.

(** [GetFilesContentBinary] is all or nothing. *)
Lemma GetFilesContentBinary_cases (dir : error + list orasclient.DirEntry) :
  match orasclient.GetFilesContentBinary dir with
  | (files, Some err) =>
      files = None
      ∧ ∃ msg cause,
          err = ErrWrapped msg cause
          ∧ (dir = inl cause
             ∨ ∃ entries entry,
                 dir = inr entries ∧ entry ∈ entries
                 ∧ orasclient.IsDir entry = false
                 ∧ orasclient.ReadFile entry = inl cause)
  | (files, None) =>
      ∃ entries g,
        dir = inr entries ∧ files = Some g
        ∧ (∀ entry, entry ∈ entries → orasclient.IsDir entry = false →
             ∃ content, orasclient.ReadFile entry = inr content
                        ∧ is_Some (g !! orasclient.entry_Name entry))
        ∧ (∀ name content, g !! name = Some content →
             ∃ entry, entry ∈ entries ∧ orasclient.IsDir entry = false
                      ∧ orasclient.entry_Name entry = name
                      ∧ orasclient.ReadFile entry = inr content)
  end.
Proof.
  destruct dir as [cause|entries]; simpl.
  - split; [done|]. eexists _, cause. split; [done | by left].
  - pose proof (readEntries_cases entries ∅) as H.
    destruct (orasclient.readEntries entries ∅) as [files [err|]].
    + destruct H as (-> & entry & cause & Hin & Hreg & Hread & ->).
      split; [done|]. eexists _, cause. split; [done|].
      right. exists entries, entry. done.
    + destruct H as (g & -> & Hall & Hfrom & _).
      exists entries, g. split; [done|]. split; [done|]. split; [done|].
      intros name content Hg.
      destruct (Hfrom _ _ Hg) as [Hempty|?]; [|done].
      by rewrite lookup_empty in Hempty.
Qed.

(** C7, amended. When the staging directory, the file store, the client or
    the transfer fails, [GetFiles] panics with the error of the first call
    that failed and returns no content. It returns a [Filemap] only after
    all of them succeeded, with the digest of the copy and with the files
    that [GetFilesContentBinary] gives for the staged directory, which are
    never partial: the file map is either nil or holds every top-level
    regular file of the staged directory and nothing else.
    [GetFilesContentBinary] is all or nothing: on a failure to list the
    directory or to read a file it returns the nil map and an error
    wrapping the cause, and without an error the map holds every top-level
    regular file and nothing else. *)
Theorem content_fetch_is_all_or_nothing
    (env : orasclient.Env) (registry tag : string) (creds : bytes)
    (dir : error + list orasclient.DirEntry) :
  match orasclient.GetFiles env registry tag creds with
  | Ret content =>
      ∃ tmpdir repo staged,
        orasclient.MkdirTemp env = inr tmpdir
        ∧ orasclient.file_New env tmpdir = None
        ∧ orasclient.CreateClient env registry creds = Ret repo
        ∧ orasclient.Copy env repo tag
          = inr (orasclient.Digest content, staged)
        ∧ orasclient.Files content
          = (orasclient.GetFilesContentBinary staged).1
        ∧ (orasclient.Files content = None
           ∨ ∃ entries g,
               staged = inr entries
               ∧ orasclient.Files content = Some g
               ∧ (∀ entry, entry ∈ entries →
                    orasclient.IsDir entry = false →
                    ∃ bytes_read,
                      orasclient.ReadFile entry = inr bytes_read
                      ∧ is_Some (g !! orasclient.entry_Name entry))
               ∧ (∀ name bytes_read, g !! name = Some bytes_read →
                    ∃ entry, entry ∈ entries
                             ∧ orasclient.IsDir entry = false
                             ∧ orasclient.entry_Name entry = name
                             ∧ orasclient.ReadFile entry = inr bytes_read))
  | Panic v =>
      orasclient.MkdirTemp env = inl v
      ∨ ∃ tmpdir,
          orasclient.MkdirTemp env = inr tmpdir
          ∧ (orasclient.file_New env tmpdir = Some v
             ∨ (orasclient.file_New env tmpdir = None
                ∧ (orasclient.CreateClient env registry creds = Panic v
                   ∨ ∃ repo,
                       orasclient.CreateClient env registry creds = Ret repo
                       ∧ orasclient.Copy env repo tag = inl v)))
  end
  ∧ match orasclient.GetFilesContentBinary dir with
    | (files, Some err) =>
        files = None
        ∧ ∃ msg cause,
            err = ErrWrapped msg cause
            ∧ (dir = inl cause
               ∨ ∃ entries entry,
                   dir = inr entries ∧ entry ∈ entries
                   ∧ orasclient.IsDir entry = false
                   ∧ orasclient.ReadFile entry = inl cause)
    | (files, None) =>
        ∃ entries g,
          dir = inr entries ∧ files = Some g
          ∧ (∀ entry, entry ∈ entries → orasclient.IsDir entry = false →
               ∃ content, orasclient.ReadFile entry = inr content
                          ∧ is_Some (g !! orasclient.entry_Name entry))
          ∧ (∀ name content, g !! name = Some content →
               ∃ entry, entry ∈ entries ∧ orasclient.IsDir entry = false
                        ∧ orasclient.entry_Name entry = name
                        ∧ orasclient.ReadFile entry = inr content)
    end.
Proof.
  split; [|apply GetFilesContentBinary_cases].
  pose proof (GetFiles_cases_full env registry tag creds) as H.
  destruct (orasclient.GetFiles env registry tag creds) as [content|v];
    [|exact H].
  destruct H as (tmpdir & repo & staged & Htmp & Hnew & Hcl & Hcopy & Hfiles).
  exists tmpdir, repo, staged. repeat (split; [done|]).
  pose proof (GetFilesContentBinary_cases staged) as Hread.
  destruct (orasclient.GetFilesContentBinary staged) as [files [err|]];
    simpl in Hfiles.
  - left. destruct Hread as [-> _]. done.
  - right. destruct Hread as (entries & g & -> & -> & Hall & Hfrom).
    exists entries, g. done.
Qed.

(** ** The API calls *)

Section api.
Implicit Types (c : Cluster) (key : NamespacedName).

Lemma Get_OCISecret_inv key c c' r :
  Get_OCISecret key c = (c', r) →
  c' = after_call (EvGetOCISecret key) c
  ∧ match r with
    | inr o => ocisecrets c !! key = Some o
    | inl err =>
        (ocisecrets c !! key = None ∧ IsNotFound err = true)
        ∨ (IsNotFound err = false)
    end.
Proof.
  unfold Get_OCISecret, next_fault, record, after_call; simpl.
  destruct (faults c) as [|[msg|] fs]; simpl;
    try (intros [= <- <-]; split; [done | by right]);
    destruct (ocisecrets c !! key) eqn:Hl;
    intros [= <- <-]; (split; [done|]); auto.
Qed.

Lemma Get_Secret_inv key c c' r :
  Get_Secret key c = (c', r) →
  c' = after_call (EvGetSecret key) c
  ∧ match r with
    | inr s => secrets c !! key = Some s
    | inl err =>
        (secrets c !! key = None ∧ IsNotFound err = true)
        ∨ (IsNotFound err = false)
    end.
Proof.
  unfold Get_Secret, next_fault, record, after_call; simpl.
  destruct (faults c) as [|[msg|] fs]; simpl;
    try (intros [= <- <-]; split; [done | by right]);
    destruct (secrets c !! key) eqn:Hl;
    intros [= <- <-]; (split; [done|]); auto.
Qed.

Lemma Create_inv obj c c' e :
  Create obj c = (c', e) →
  match e with
  | Some _ => c' = after_call (EvCreate obj) c
  | None =>
      secrets c !! secret_key obj = None
      ∧ c' = set_secret (secret_key obj) obj (after_call (EvCreate obj) c)
  end.
Proof.
  unfold Create, next_fault, record, after_call; simpl.
  destruct (faults c) as [|[msg|] fs]; simpl;
    try (by intros [= <- <-]);
    destruct (secrets c !! secret_key obj) eqn:Hl;
    by intros [= <- <-].
Qed.

Lemma Update_inv obj c c' e :
  Update obj c = (c', e) →
  match e with
  | Some _ => c' = after_call (EvUpdate obj) c
  | None =>
      is_Some (secrets c !! secret_key obj)
      ∧ c' = set_secret (secret_key obj) obj (after_call (EvUpdate obj) c)
  end.
Proof.
  unfold Update, next_fault, record, after_call; simpl.
  destruct (faults c) as [|[msg|] fs]; simpl;
    try (by intros [= <- <-]);
    destruct (secrets c !! secret_key obj) eqn:Hl;
    intros [= <- <-]; eauto.
Qed.

(** With nothing scheduled to fail, the calls are served from the
    stores. *)
Lemma Get_OCISecret_healthy key c :
  faults c = [] →
  Get_OCISecret key c
  = (after_call (EvGetOCISecret key) c,
     match ocisecrets c !! key with
     | Some o => inr o
     | None => inl (ErrNotFound key.2)
     end).
Proof.
  intros Hf. unfold Get_OCISecret, next_fault, record, after_call; simpl.
  rewrite Hf; simpl. by destruct (ocisecrets c !! key).
Qed.

Lemma Get_Secret_healthy key c :
  faults c = [] →
  Get_Secret key c
  = (after_call (EvGetSecret key) c,
     match secrets c !! key with
     | Some s => inr s
     | None => inl (ErrNotFound key.2)
     end).
Proof.
  intros Hf. unfold Get_Secret, next_fault, record, after_call; simpl.
  rewrite Hf; simpl. by destruct (secrets c !! key).
Qed.

End api.

(** ** Step 2: the pull secret *)

Section pull_secret.
Import controller.
Implicit Types (c : Cluster) (o : OCISecret).

(** The loop over the data of the pull secret is a lookup. *)
Lemma dockerconfigjson_lookup (data : gomap bytes) :
  dockerconfigjson data
  = match gomap_lookup data ".dockerconfigjson" with
    | Some value => String.string_of_list_byte value
    | None => ""
    end.
Proof.
  destruct data as [g|]; simpl; [|done].
  apply (map_fold_weak_ind (fun r (m : gmap string bytes) =>
    r = match m !! ".dockerconfigjson" with
        | Some value => String.string_of_list_byte value
        | None => ""
        end)).
  - by rewrite lookup_empty.
  - intros i x m r Hi ->. case_bool_decide as Hk.
    + subst i. by rewrite lookup_insert_eq.
    + by rewrite lookup_insert_ne.
Qed.

Lemma getPullSecret_unset o c :
  ref_Name (ArtefactPullSecret (Spec o)) = ""
  ∨ ref_Namespace (ArtefactPullSecret (Spec o)) = "" →
  getPullSecret o c = (c, Continue "").
Proof.
  intros H. unfold getPullSecret.
  destruct H as [-> | ->]; simpl; [done|].
  by rewrite orb_true_r.
Qed.

Lemma getPullSecret_set o c :
  pull_secret_set o →
  getPullSecret o c
  = let '(c, r) := Get_Secret (pull_secret_key o) c in
    match r with
    | inl err => (c, Return emptyResult (Some err))
    | inr OCIPullSecret =>
        if bool_decide (dockerconfigjson (Data OCIPullSecret) = "")
        then (c, Return emptyResult None)
        else (c, Continue (dockerconfigjson (Data OCIPullSecret)))
    end.
Proof.
  intros [Hn Hns]. unfold getPullSecret.
  rewrite !bool_decide_eq_false_2 by done. done.
Qed.

Lemma pull_secret_set_dec o :
  pull_secret_set o
  ∨ (ref_Name (ArtefactPullSecret (Spec o)) = ""
     ∨ ref_Namespace (ArtefactPullSecret (Spec o)) = "").
Proof.
  unfold pull_secret_set.
  destruct (decide (ref_Name (ArtefactPullSecret (Spec o)) = ""));
    destruct (decide (ref_Namespace (ArtefactPullSecret (Spec o)) = ""));
    tauto.
Qed.

(** Every way through step 2. *)
Lemma getPullSecret_inv o c c' fl :
  getPullSecret o c = (c', fl) →
  match fl with
  | Continue secretData =>
      (¬ pull_secret_set o ∧ c' = c ∧ secretData = "")
      ∨ (pull_secret_set o
         ∧ c' = after_call (EvGetSecret (pull_secret_key o)) c
         ∧ secretData ≠ ""
         ∧ ∃ ps, secrets c !! pull_secret_key o = Some ps
                 ∧ dockerconfigjson (Data ps) = secretData)
  | Return res err =>
      pull_secret_set o
      ∧ c' = after_call (EvGetSecret (pull_secret_key o)) c
      ∧ res = emptyResult
      ∧ match err with
        | Some _ => True
        | None => ∃ ps, secrets c !! pull_secret_key o = Some ps
                        ∧ dockerconfigjson (Data ps) = ""
        end
  end.
Proof.
  destruct (pull_secret_set_dec o) as [Hset|Hunset].
  - rewrite getPullSecret_set by done.
    destruct (Get_Secret (pull_secret_key o) c) as [c1 r] eqn:Hget.
    apply Get_Secret_inv in Hget as [-> Hr].
    destruct r as [err|ps].
    + intros [= <- <-]. done.
    + case_bool_decide as Hd; intros [= <- <-].
      * split; [done|]. split; [done|]. split; [done|]. eauto.
      * right. split; [done|]. split; [done|]. split; [done|]. eauto.
  - rewrite getPullSecret_unset by done. intros [= <- <-].
    left. split; [|done]. intros [? ?]. tauto.
Qed.

End pull_secret.

(** ** Reconcile *)

(** Run the next API call of the goal and split on its result. *)
Ltac run_api :=
  let H := fresh "Hcall" in
  match goal with
  | |- context [Create ?obj ?c] =>
      destruct (Create obj c) as [? [?|]] eqn:H;
      apply Create_inv in H; simpl in H; cbn [fst snd]
  | |- context [Get_Secret ?k ?c] =>
      destruct (Get_Secret k c) as [? [?|?]] eqn:H;
      apply Get_Secret_inv in H as [-> H]; simpl in H
  | |- context [Update ?obj ?c] =>
      destruct (Update obj c) as [? [?|]] eqn:H;
      apply Update_inv in H; simpl in H
  end.

(** Close a goal on the trace of a cluster built by the calls of a pass. *)
Ltac trace_prefix_go :=
  first [ reflexivity | apply prefix_app_r; trace_prefix_go ].
Ltac trace_prefix := simpl; trace_prefix_go.

Section reconcile.
Import controller.
Variable env : orasclient.Env.
Implicit Types (c : Cluster) (o : OCISecret) (secretData : string).

Lemma needsUpdate_false t d files :
  needsUpdate t d files = false
  ↔ gomap_index (Annotations t) rev = d
    ∧ gomap_len (Data t) = length files.
Proof.
  unfold needsUpdate. rewrite orb_false_iff, !bool_decide_eq_false.
  split; intros [H1 H2]; split; try (by apply dec_stable); auto.
Qed.

(** The code's trigger: the digests differ, or the counts differ. *)
Lemma needsUpdate_true t d files :
  needsUpdate t d files = true
  ↔ gomap_index (Annotations t) rev ≠ d
    ∨ gomap_len (Data t) ≠ length files.
Proof.
  unfold needsUpdate. by rewrite orb_true_iff, !bool_decide_eq_true.
Qed.

(** With the digest fetched and the target loaded by both reads, the pass
    syncs exactly when [needsUpdate] holds. *)
Lemma syncTarget_loaded o secretData c c1 c2 d t0 t :
  orasclient.GetDigest env (ArtefactRegistry (Spec o)) (OrasArtefact (Spec o))
    (String.list_byte_of_string secretData) = Ret d →
  Get_Secret (target_key o)
    (record (EvGetDigest (ArtefactRegistry (Spec o)) (OrasArtefact (Spec o))
               (String.list_byte_of_string secretData)) c) = (c1, inr t0) →
  Get_Secret (target_key o) c1 = (c2, inr t) →
  syncTarget env o secretData c
  = if needsUpdate t d (Files (Spec o))
    then updateTarget env o secretData t c2
    else (c2, Done (mkResult false (60 * Second)) None).
Proof.
  intros Hd Hget1 Hget2. unfold syncTarget. rewrite Hd.
  fold (target_key o). rewrite Hget1, Hget2. done.
Qed.

Lemma updateTarget_trace o secretData t c :
  trace c `prefix_of` trace (updateTarget env o secretData t c).1.
Proof.
  unfold updateTarget.
  destruct (orasclient.GetFiles env _ _ _); [|trace_prefix].
  destruct (Annotations t); [|trace_prefix].
  run_api; [subst|destruct Hcall as [_ ->]]; trace_prefix.
Qed.

(** Steps 3 to 5 begin with the digest request, made with the bytes of
    [secretData]. *)
Lemma syncTarget_trace o secretData c :
  (trace c ++ [EvGetDigest (ArtefactRegistry (Spec o))
                 (OrasArtefact (Spec o))
                 (String.list_byte_of_string secretData)])%list
  `prefix_of` trace (syncTarget env o secretData c).1.
Proof.
  unfold syncTarget.
  destruct (orasclient.GetDigest env _ _ _); [|trace_prefix].
  set (called := (trace c ++ [EvGetDigest (ArtefactRegistry (Spec o))
                   (OrasArtefact (Spec o))
                   (String.list_byte_of_string secretData)])%list).
  assert (∀ c' t, called `prefix_of` trace c' →
            called `prefix_of` trace (updateTarget env o secretData t c').1)
    as Hup.
  { intros c' t Hc'. etrans; [exact Hc'|apply updateTarget_trace]. }
  run_api.
  - destruct (IsNotFound e); [|trace_prefix].
    run_api; [subst|destruct Hcall0 as [_ ->]];
      (run_api; [trace_prefix|]);
      (destruct (needsUpdate _ _ _); [apply Hup|]; trace_prefix).
  - run_api; [trace_prefix|].
    destruct (needsUpdate _ _ _); [apply Hup|]; trace_prefix.
Qed.

Lemma updateTarget_done_nil o secretData t c res :
  (updateTarget env o secretData t c).2 = Done res None →
  res = mkResult false (60 * Second).
Proof.
  unfold updateTarget.
  destruct (orasclient.GetFiles env _ _ _); [|done].
  destruct (Annotations t); [|done].
  run_api; simpl; congruence.
Qed.

(** A pass that gets as far as step 3 and returns a nil error returns
    the 60 seconds. *)
Lemma syncTarget_done_nil o secretData c res :
  (syncTarget env o secretData c).2 = Done res None →
  res = mkResult false (60 * Second).
Proof.
  unfold syncTarget.
  destruct (orasclient.GetDigest env _ _ _); [|done].
  run_api.
  - destruct (IsNotFound e); [|done].
    run_api; (run_api; [done|]);
      (destruct (needsUpdate _ _ _);
         [apply updateTarget_done_nil | simpl; congruence]).
  - run_api; [done|].
    destruct (needsUpdate _ _ _);
      [apply updateTarget_done_nil | simpl; congruence].
Qed.

End reconcile.

Section reconcile_steps.
Import controller.
Variable env : orasclient.Env.

Lemma new_events_after c evs c' :
  trace c' = (trace c ++ evs)%list → new_events c c' = evs.
Proof. unfold new_events. intros ->. apply drop_app_length. Qed.

(** [Reconcile] once the OCISecret is loaded. *)
Lemma Reconcile_loaded req c c1 o :
  Get_OCISecret req c = (c1, inr o) →
  Reconcile env req c
  = match getPullSecret o c1 with
    | (c2, Return res err) => (c2, Done res err)
    | (c2, Continue secretData) => syncTarget env o secretData c2
    end.
Proof. intros Hget. unfold Reconcile. rewrite Hget. done. Qed.

End reconcile_steps.

(** C5, as stated, fails: the pull secret of this cluster exists and has no
    key .dockerconfigjson, and [Reconcile] returns a nil error. *)
Lemma missing_dockerconfig_counterexample :
  secrets examples.cluster_no_dockerconfig !! ("apps", "pull")
  = Some examples.pull_without_key
  ∧ gomap_lookup (Data examples.pull_without_key) ".dockerconfigjson" = None
  ∧ snd (controller.Reconcile examples.env_ok examples.req1
           examples.cluster_no_dockerconfig)
    = controller.Done controller.emptyResult None.
Proof. repeat split; vm_compute; reflexivity. Qed.

(** C5, amended. When the pull secret is named, exists and lacks the key
    .dockerconfigjson, the pass ends right there: no Secret is written, the
    registry is not contacted, and [Reconcile] returns the empty result with
    a nil error, so the condition is not reported to the caller and no
    revisit is scheduled. *)
Theorem missing_dockerconfig_ends_pass
    (env : orasclient.Env) (req : NamespacedName) (c c1 c2 : Cluster)
    (o : OCISecret) (ps : Secret) :
  Get_OCISecret req c = (c1, inr o) →
  pull_secret_set o →
  Get_Secret (pull_secret_key o) c1 = (c2, inr ps) →
  gomap_lookup (Data ps) ".dockerconfigjson" = None →
  controller.Reconcile env req c = (c2, controller.Done controller.emptyResult None)
  ∧ secrets c2 = secrets c
  ∧ new_events c c2 = [EvGetOCISecret req; EvGetSecret (pull_secret_key o)].
Proof.
  intros Hget Hset Hpull Hkey.
  rewrite (Reconcile_loaded env req c c1 o Hget).
  rewrite getPullSecret_set by done. rewrite Hpull.
  rewrite dockerconfigjson_lookup, Hkey. simpl.
  apply Get_OCISecret_inv in Hget as [-> _].
  apply Get_Secret_inv in Hpull as [-> _].
  split; [done|]. split; [done|].
  apply new_events_after. simpl. by rewrite <- app_assoc.
Qed.

Lemma missing_dockerconfig_ends_pass_witness :
  let c := examples.cluster_no_dockerconfig in
  let o := examples.ocisecret ["a.txt"] examples.pull_ref in
  let c1 := after_call (EvGetOCISecret examples.req1) c in
  let c2 := after_call (EvGetSecret (pull_secret_key o)) c1 in
  controller.Reconcile examples.env_ok examples.req1 c
  = (c2, controller.Done controller.emptyResult None)
  ∧ secrets c2 = secrets c
  ∧ new_events c c2
    = [EvGetOCISecret examples.req1; EvGetSecret (pull_secret_key o)].
Proof.
  intros c o c1 c2.
  apply (missing_dockerconfig_ends_pass examples.env_ok examples.req1
           c c1 c2 o examples.pull_without_key).
  - vm_compute. reflexivity.
  - split; vm_compute; discriminate.
  - vm_compute. reflexivity.
  - vm_compute. reflexivity.
Defined.

(** C10. When the pull-secret reference has an empty name or an empty
    namespace, step 2 reads no Secret and returns no error; the pass goes on
    to the registry with empty credential bytes, its next call is the
    digest request with no credentials, and a client built from empty
    credentials carries none (anonymous access). *)
Theorem empty_pull_reference_means_anonymous
    (env : orasclient.Env) (req : NamespacedName) (c c1 : Cluster)
    (o : OCISecret) :
  Get_OCISecret req c = (c1, inr o) →
  ref_Name (ArtefactPullSecret (Spec o)) = ""
  ∨ ref_Namespace (ArtefactPullSecret (Spec o)) = "" →
  controller.getPullSecret o c1 = (c1, controller.Continue "")
  ∧ controller.Reconcile env req c = controller.syncTarget env o "" c1
  ∧ (trace c1 ++ [EvGetDigest (ArtefactRegistry (Spec o))
                    (OrasArtefact (Spec o)) []])%list
    `prefix_of` trace (controller.Reconcile env req c).1
  ∧ match orasclient.CreateClient env (ArtefactRegistry (Spec o)) [] with
    | Ret repo => orasclient.Credential (orasclient.repo_Client repo) = None
    | Panic v =>
        orasclient.NewRepository env (ArtefactRegistry (Spec o)) = Some v
    end.
Proof.
  intros Hget Hunset.
  assert (controller.Reconcile env req c = controller.syncTarget env o "" c1)
    as Hrec.
  { rewrite (Reconcile_loaded env req c c1 o Hget).
    by rewrite getPullSecret_unset. }
  split; [by apply getPullSecret_unset|]. split; [done|]. split.
  - rewrite Hrec. apply (syncTarget_trace env o "" c1).
  - pose proof (CreateClient_cases env (ArtefactRegistry (Spec o)) []) as H.
    destruct (orasclient.CreateClient env _ _).
    + destruct H as (_ & _ & [[_ ?]|[? _]]); done.
    + destruct H as [?|[? _]]; done.
Qed.

Lemma empty_pull_reference_means_anonymous_witness :
  let c := examples.cluster_half_ref in
  let o := examples.ocisecret ["a.txt"] examples.half_ref in
  let c1 := after_call (EvGetOCISecret examples.req1) c in
  controller.getPullSecret o c1 = (c1, controller.Continue "")
  ∧ controller.Reconcile examples.env_ok examples.req1 c
    = controller.syncTarget examples.env_ok o "" c1
  ∧ (trace c1 ++ [EvGetDigest (ArtefactRegistry (Spec o))
                    (OrasArtefact (Spec o)) []])%list
    `prefix_of` trace (controller.Reconcile examples.env_ok examples.req1 c).1
  ∧ match orasclient.CreateClient examples.env_ok
            (ArtefactRegistry (Spec o)) [] with
    | Ret repo => orasclient.Credential (orasclient.repo_Client repo) = None
    | Panic v =>
        orasclient.NewRepository examples.env_ok (ArtefactRegistry (Spec o))
        = Some v
    end.
Proof.
  intros c o c1.
  apply (empty_pull_reference_means_anonymous examples.env_ok examples.req1
           c c1 o).
  - vm_compute. reflexivity.
  - right. reflexivity.
Defined.

(** C6, as stated, fails: these two passes return a nil error and no
    revisit delay at all. The first finds no OCISecret, the second a pull
    secret without Docker config. *)
Lemma no_revisit_counterexample :
  snd (controller.Reconcile examples.env_ok examples.req1
         examples.cluster_deleted)
  = controller.Done (controller.mkResult false 0) None
  ∧ snd (controller.Reconcile examples.env_ok examples.req1
           examples.cluster_no_dockerconfig)
    = controller.Done (controller.mkResult false 0) None
  ∧ (0 ≠ 60 * controller.Second)%Z.
Proof. repeat split; vm_compute; (reflexivity || discriminate). Qed.

(** C6, amended. A pass that returns a nil error returns the revisit delay
    of 60 seconds exactly when it did not end early, whether it synced or
    skipped the sync; the two early ends (the OCISecret is gone, or the
    named pull secret holds no Docker config) return the empty result,
    which schedules no revisit. *)
Theorem revisit_delay
    (env : orasclient.Env) (req : NamespacedName) (c c' : Cluster)
    (res : controller.Result) :
  controller.Reconcile env req c = (c', controller.Done res None) →
  (ends_early req c ∧ res = controller.emptyResult)
  ∨ (¬ ends_early req c
     ∧ res = controller.mkResult false (60 * controller.Second)).
Proof.
  destruct (Get_OCISecret req c) as [c1 [err|o]] eqn:Hget.
  - unfold controller.Reconcile. rewrite Hget.
    apply Get_OCISecret_inv in Hget as [-> Hr].
    destruct (IsNotFound err); [|done].
    intros [= <- <-]. left. split; [|done].
    left. by destruct Hr as [[? _]|?].
  - rewrite (Reconcile_loaded env req c c1 o Hget).
    apply Get_OCISecret_inv in Hget as [-> Ho].
    destruct (controller.getPullSecret o _) as [c2 fl] eqn:Hps.
    apply getPullSecret_inv in Hps. destruct fl as [secretData|res' err].
    + intros Hsync. right. split.
      * intros [Hnone|(o' & ps' & Ho' & Hset & Hps' & Hd)]; [congruence|].
        assert (o' = o) as -> by congruence.
        destruct Hps as [[Hn _]|(_ & _ & Hne & ps & Hps2 & Hd2)]; [done|].
        simpl in Hps2. congruence.
      * apply (syncTarget_done_nil env o secretData c2). by rewrite Hsync.
    + intros [= -> -> ->]. destruct Hps as (Hset & _ & -> & ps & Hps & Hd).
      left. split; [|done]. right. exists o, ps. done.
Qed.

Lemma revisit_delay_witness :
  (ends_early examples.req1 (examples.cluster_new ["a.txt"])
   ∧ controller.mkResult false (60 * controller.Second)
     = controller.emptyResult)
  ∨ (¬ ends_early examples.req1 (examples.cluster_new ["a.txt"])
     ∧ controller.mkResult false (60 * controller.Second)
       = controller.mkResult false (60 * controller.Second)).
Proof.
  apply (revisit_delay examples.env_ok examples.req1
           (examples.cluster_new ["a.txt"])
           (controller.Reconcile examples.env_ok examples.req1
              (examples.cluster_new ["a.txt"])).1).
  vm_compute. reflexivity.
Defined.

(** ** Panics of the registry calls *)

Section panics.
Import controller.
Variable env : orasclient.Env.
Implicit Types (c : Cluster) (o : OCISecret) (secretData : string).

Lemma updateTarget_files_panic o secretData t c v :
  orasclient.GetFiles env (ArtefactRegistry (Spec o)) (OrasArtefact (Spec o))
    (String.list_byte_of_string secretData) = Panic v →
  (updateTarget env o secretData t c).2 = Panicked v.
Proof. intros Hfiles. unfold updateTarget. by rewrite Hfiles. Qed.

(** No content request among the events of a pass that only read. *)
Ltac no_content_request H :=
  unfold new_events in H; simpl in H;
  rewrite <- ?app_assoc, drop_app_length in H; simpl in H;
  rewrite ?elem_of_cons, ?elem_of_nil in H;
  repeat (destruct H as [H|H]); done.

Lemma syncTarget_files_panic o secretData c v :
  orasclient.GetFiles env (ArtefactRegistry (Spec o)) (OrasArtefact (Spec o))
    (String.list_byte_of_string secretData) = Panic v →
  EvGetFiles (ArtefactRegistry (Spec o)) (OrasArtefact (Spec o))
    (String.list_byte_of_string secretData)
  ∈ new_events c (syncTarget env o secretData c).1 →
  (syncTarget env o secretData c).2 = Panicked v.
Proof.
  intros Hfiles. unfold syncTarget.
  destruct (orasclient.GetDigest env _ _ _) as [d|v'];
    [|intros Hin; no_content_request Hin].
  run_api.
  - destruct (IsNotFound e); [|intros Hin; no_content_request Hin].
    run_api; [subst|destruct Hcall0 as [_ ->]];
      (run_api; [intros Hin; no_content_request Hin|]);
      (destruct (needsUpdate _ _ _);
         [intros _; by apply updateTarget_files_panic
         |intros Hin; no_content_request Hin]).
  - run_api; [intros Hin; no_content_request Hin|].
    destruct (needsUpdate _ _ _);
      [intros _; by apply updateTarget_files_panic
      |intros Hin; no_content_request Hin].
Qed.

(** A panic of the digest request ends the pass as that panic. *)
Lemma Reconcile_digest_panic req c c1 c2 o secretData v :
  Get_OCISecret req c = (c1, inr o) →
  getPullSecret o c1 = (c2, Continue secretData) →
  orasclient.GetDigest env (ArtefactRegistry (Spec o)) (OrasArtefact (Spec o))
    (String.list_byte_of_string secretData) = Panic v →
  (Reconcile env req c).2 = Panicked v.
Proof.
  intros Hget Hps Hd.
  rewrite (Reconcile_loaded env req c c1 o Hget), Hps.
  unfold syncTarget. by rewrite Hd.
Qed.

(** A panic of the content request ends the pass as that panic. *)
Lemma Reconcile_files_panic req c c1 c2 o secretData v :
  Get_OCISecret req c = (c1, inr o) →
  getPullSecret o c1 = (c2, Continue secretData) →
  orasclient.GetFiles env (ArtefactRegistry (Spec o)) (OrasArtefact (Spec o))
    (String.list_byte_of_string secretData) = Panic v →
  EvGetFiles (ArtefactRegistry (Spec o)) (OrasArtefact (Spec o))
    (String.list_byte_of_string secretData)
  ∈ new_events c (Reconcile env req c).1 →
  (Reconcile env req c).2 = Panicked v.
Proof.
  intros Hget Hps Hfiles.
  rewrite (Reconcile_loaded env req c c1 o Hget), Hps.
  apply Get_OCISecret_inv in Hget as [-> _].
  assert (∃ reads,
            trace c2 = (trace c ++ reads)%list
            ∧ ∀ r t cr, EvGetFiles r t cr ∉ reads) as (reads & Hreads & Hno).
  { apply getPullSecret_inv in Hps as [(_ & -> & _)|(_ & -> & _)].
    - exists [EvGetOCISecret req]. split; [done|].
      intros r t cr [?|[]%elem_of_nil]%elem_of_cons. done.
    - eexists [EvGetOCISecret req; EvGetSecret _].
      split; [simpl; by rewrite <- app_assoc|].
      intros r t cr [?|[?|[]%elem_of_nil]%elem_of_cons]%elem_of_cons; done. }
  destruct (syncTarget_trace env o secretData c2) as [k Hk].
  intros Hin. apply syncTarget_files_panic; [done|].
  unfold new_events in *. rewrite Hk in Hin |- *.
  rewrite <- app_assoc, drop_app_length.
  rewrite Hreads, <- !app_assoc, drop_app_length in Hin.
  apply elem_of_app in Hin as [Hin|Hin]; [|done].
  by apply Hno in Hin.
Qed.

End panics.

(** C2, as stated, fails: for a registry address that does not parse,
    [CreateClient] gives its caller neither a repository nor an error value
    but panics, and the panic leaves [Reconcile] as a panic. *)
Lemma CreateClient_panics_counterexample :
  orasclient.CreateClient examples.env_bad_address "registry.example/conf" []
  = Panic (ErrLib "invalid reference")
  ∧ snd (controller.Reconcile examples.env_bad_address examples.req1
           (examples.cluster_new []))
    = controller.Panicked (ErrLib "invalid reference").
Proof. split; vm_compute; reflexivity. Qed.

(** C2, amended. For every input, each of client construction, digest fetch
    and content fetch either returns its result or panics with the error
    of the library call that failed (address parse, credential parse,
    manifest fetch, staging directory, copy); none of them returns an error
    value. [Reconcile] has no recover: when a pass comes to the digest
    request and [GetDigest] panics, or requests the content and [GetFiles]
    panics, the call of [Reconcile] ends as that panic. *)
Theorem core_operations_return_or_panic
    (env : orasclient.Env) (registry tag : string) (creds : bytes)
    (req : NamespacedName) (c : Cluster) :
  match orasclient.CreateClient env registry creds with
  | Ret repo =>
      orasclient.NewRepository env registry = None
      ∧ (creds = []
         ∨ orasclient.NewMemoryStoreFromDockerConfig env creds = None)
  | Panic v =>
      orasclient.NewRepository env registry = Some v
      ∨ (creds ≠ []
         ∧ orasclient.NewMemoryStoreFromDockerConfig env creds = Some v)
  end
  ∧ match orasclient.GetDigest env registry tag creds with
    | Ret d =>
        ∃ repo, orasclient.CreateClient env registry creds = Ret repo
                ∧ orasclient.Fetch env repo tag = inr d
    | Panic v =>
        orasclient.CreateClient env registry creds = Panic v
        ∨ ∃ repo, orasclient.CreateClient env registry creds = Ret repo
                  ∧ orasclient.Fetch env repo tag = inl v
    end
  ∧ match orasclient.GetFiles env registry tag creds with
    | Ret content =>
        ∃ repo dir,
          orasclient.CreateClient env registry creds = Ret repo
          ∧ orasclient.Copy env repo tag
            = inr (orasclient.Digest content, dir)
    | Panic v =>
        orasclient.MkdirTemp env = inl v
        ∨ (∃ tmpdir, orasclient.MkdirTemp env = inr tmpdir
                     ∧ orasclient.file_New env tmpdir = Some v)
        ∨ orasclient.CreateClient env registry creds = Panic v
        ∨ ∃ repo, orasclient.CreateClient env registry creds = Ret repo
                  ∧ orasclient.Copy env repo tag = inl v
    end
  ∧ (∀ c1 c2 o secretData v,
       Get_OCISecret req c = (c1, inr o) →
       controller.getPullSecret o c1 = (c2, controller.Continue secretData) →
       orasclient.GetDigest env (ArtefactRegistry (Spec o))
         (OrasArtefact (Spec o)) (String.list_byte_of_string secretData)
       = Panic v →
       (controller.Reconcile env req c).2 = controller.Panicked v)
  ∧ (∀ c1 c2 o secretData v,
       Get_OCISecret req c = (c1, inr o) →
       controller.getPullSecret o c1 = (c2, controller.Continue secretData) →
       orasclient.GetFiles env (ArtefactRegistry (Spec o))
         (OrasArtefact (Spec o)) (String.list_byte_of_string secretData)
       = Panic v →
       EvGetFiles (ArtefactRegistry (Spec o)) (OrasArtefact (Spec o))
         (String.list_byte_of_string secretData)
       ∈ new_events c (controller.Reconcile env req c).1 →
       (controller.Reconcile env req c).2 = controller.Panicked v).
Proof.
  split; [|split; [apply GetDigest_cases|split; [apply GetFiles_cases|]]].
  - pose proof (CreateClient_cases env registry creds) as H.
    destruct (orasclient.CreateClient env registry creds); [|done].
    destruct H as (? & _ & [[? _]|(_ & ? & _)]); auto.
  - split.
    + intros c1 c2 o secretData v. apply Reconcile_digest_panic.
    + intros c1 c2 o secretData v. apply Reconcile_files_panic.
Qed.

Lemma core_operations_return_or_panic_witness :
  (controller.Reconcile examples.env_bad_address examples.req1
     (examples.cluster_new [])).2
  = controller.Panicked (ErrLib "invalid reference")
  ∧ (controller.Reconcile examples.env_copy_fails examples.req1
       (examples.cluster_new [])).2
    = controller.Panicked (ErrLib "connection reset").
Proof.
  split.
  - destruct (core_operations_return_or_panic examples.env_bad_address
                "registry.example/conf" "v1" [] examples.req1
                (examples.cluster_new [])) as (_ & _ & _ & Hdigest & _).
    apply (Hdigest
             (after_call (EvGetOCISecret examples.req1)
                (examples.cluster_new []))
             (after_call (EvGetOCISecret examples.req1)
                (examples.cluster_new []))
             (examples.ocisecret [] examples.anonymous) "").
    + vm_compute. reflexivity.
    + vm_compute. reflexivity.
    + vm_compute. reflexivity.
  - destruct (core_operations_return_or_panic examples.env_copy_fails
                "registry.example/conf" "v1" [] examples.req1
                (examples.cluster_new [])) as (_ & _ & _ & _ & Hfiles).
    apply (Hfiles
             (after_call (EvGetOCISecret examples.req1)
                (examples.cluster_new []))
             (after_call (EvGetOCISecret examples.req1)
                (examples.cluster_new []))
             (examples.ocisecret [] examples.anonymous) "").
    + vm_compute. reflexivity.
    + vm_compute. reflexivity.
    + vm_compute. reflexivity.
    + apply (list_elem_of_lookup_2 _ 5). vm_compute. reflexivity.
Defined.

(** ** The first pass of a new OCISecret *)

Lemma has_colon_digest_form d : digest_form d → has_colon d = true.
Proof.
  intros (algorithm & hex & ->).
  induction algorithm as [|a algorithm IH]; simpl.
  - done.
  - rewrite IH. apply orb_true_r.
Qed.

(** The placeholder of a new target is no digest. *)
Lemma sentinel_is_no_digest d : digest_form d → "00000" ≠ d.
Proof. intros Hd <-. apply has_colon_digest_form in Hd. done. Qed.

Lemma Create_healthy obj c :
  faults c = [] →
  secrets c !! secret_key obj = None →
  Create obj c
  = (set_secret (secret_key obj) obj (after_call (EvCreate obj) c), None).
Proof.
  intros Hf Hl. unfold Create, next_fault, record, after_call; simpl.
  rewrite Hf; simpl. by rewrite Hl.
Qed.

Lemma Update_healthy obj old c :
  faults c = [] →
  secrets c !! secret_key obj = Some old →
  Update obj c
  = (set_secret (secret_key obj) obj (after_call (EvUpdate obj) c), None).
Proof.
  intros Hf Hl. unfold Update, next_fault, record, after_call; simpl.
  rewrite Hf; simpl. by rewrite Hl.
Qed.

(** C9. On the first pass of an OCISecret whose target Secret is absent
    (no API call failing, credentials resolved, the registry answering with
    a real digest and the content), the target is created with the
    annotation "00000", which equals no digest of the form
    <algorithm>:<hex>, and with an owner reference to the OCISecret; it is
    read again after the creation; and the same pass fetches the content and
    stores it with the digest of the content, returning the 60 seconds. *)
Theorem first_pass_creates_then_syncs
    (env : orasclient.Env) (req : NamespacedName) (c c1 c2 : Cluster)
    (o : OCISecret) (secretData d : string) (content : orasclient.Filemap) :
  faults c = [] →
  Get_OCISecret req c = (c1, inr o) →
  secrets c !! target_key o = None →
  controller.getPullSecret o c1 = (c2, controller.Continue secretData) →
  orasclient.GetDigest env (ArtefactRegistry (Spec o)) (OrasArtefact (Spec o))
    (String.list_byte_of_string secretData) = Ret d →
  digest_form d →
  orasclient.GetFiles env (ArtefactRegistry (Spec o)) (OrasArtefact (Spec o))
    (String.list_byte_of_string secretData) = Ret content →
  let owner :=
    {| owner_APIVersion := APIVersion o; owner_Kind := Kind o;
       owner_Name := Name o; owner_UID := UID o;
       Controller := Some true; BlockOwnerDeletion := Some true |} in
  let created :=
    {| secret_Name := ref_Name (TargetSecret (Spec o));
       secret_Namespace := ref_Namespace (TargetSecret (Spec o));
       Annotations := Some {[ controller.rev := "00000" ]};
       OwnerReferences := [owner];
       Data := None |} in
  let synced :=
    {| secret_Name := ref_Name (TargetSecret (Spec o));
       secret_Namespace := ref_Namespace (TargetSecret (Spec o));
       Annotations := Some {[ controller.rev := orasclient.Digest content ]};
       OwnerReferences := [owner];
       Data := controller.filterFiles (orasclient.Files content)
                 (Files (Spec o)) |} in
  "00000" ≠ d
  ∧ (controller.Reconcile env req c).2
    = controller.Done (controller.mkResult false (60 * controller.Second)) None
  ∧ new_events c2 (controller.Reconcile env req c).1
    = [ EvGetDigest (ArtefactRegistry (Spec o)) (OrasArtefact (Spec o))
          (String.list_byte_of_string secretData);
        EvGetSecret (target_key o);
        EvCreate created;
        EvGetSecret (target_key o);
        EvGetFiles (ArtefactRegistry (Spec o)) (OrasArtefact (Spec o))
          (String.list_byte_of_string secretData);
        EvUpdate synced ]
  ∧ secrets (controller.Reconcile env req c).1
    = <[target_key o := synced]> (secrets c).
Proof.
  intros Hf Hget Hnone Hps Hd Hform Hfiles owner created synced.
  split; [by apply sentinel_is_no_digest|].
  rewrite (Reconcile_loaded env req c c1 o Hget), Hps.
  apply Get_OCISecret_inv in Hget as [-> _].
  assert (faults c2 = [] ∧ secrets c2 = secrets c) as [Hf2 Hs2].
  { apply getPullSecret_inv in Hps as [(_ & -> & _)|(_ & -> & _)];
      simpl; by rewrite Hf. }
  unfold controller.syncTarget. rewrite Hd.
  rewrite Get_Secret_healthy by (simpl; by rewrite Hf2).
  cbn [secrets record]. fold (target_key o). rewrite Hs2, Hnone.
  cbn [IsNotFound].
  change (controller.newTargetSecret o) with created.
  rewrite (Create_healthy created)
    by (simpl; rewrite ?Hf2, ?Hs2; done).
  cbn [fst].
  rewrite Get_Secret_healthy by (simpl; by rewrite Hf2).
  change (secret_key created) with (target_key o).
  cbn [secrets set_secret]. rewrite lookup_insert_eq.
  assert (controller.needsUpdate created d (Files (Spec o)) = true) as ->.
  { apply needsUpdate_true. left. simpl.
    unfold gomap_index; simpl. rewrite lookup_singleton_eq. simpl.
    by apply sentinel_is_no_digest. }
  unfold controller.updateTarget. rewrite Hfiles.
  cbn [Annotations created secret_Name secret_Namespace OwnerReferences].
  rewrite insert_singleton. fold synced.
  rewrite (Update_healthy synced created).
  - split; [done|]. split.
    + apply new_events_after. simpl. by rewrite <- !app_assoc.
    + simpl. change (secret_key synced) with (target_key o).
      change (secret_key created) with (target_key o).
      by rewrite insert_insert_eq, Hs2.
  - simpl. by rewrite Hf2.
  - simpl. change (secret_key synced) with (target_key o).
    change (secret_key created) with (target_key o).
    by rewrite lookup_insert_eq.
Qed.

Lemma first_pass_creates_then_syncs_witness :
  let c := examples.cluster_new ["a.txt"] in
  let o := examples.ocisecret ["a.txt"] examples.anonymous in
  "00000" ≠ examples.digest1
  ∧ (controller.Reconcile examples.env_ok examples.req1 c).2
    = controller.Done (controller.mkResult false (60 * controller.Second)) None
  ∧ secrets (controller.Reconcile examples.env_ok examples.req1 c).1
    = <[target_key o := examples.synced_target {[ "a.txt" := [x61] ]}]>
        (secrets c).
Proof.
  intros c o.
  pose proof (first_pass_creates_then_syncs examples.env_ok examples.req1
                c (after_call (EvGetOCISecret examples.req1) c)
                (after_call (EvGetOCISecret examples.req1) c)
                o "" examples.digest1
                (orasclient.mkFilemap examples.digest1
                   (Some (<["b.txt" := [x62]]> (<["a.txt" := [x61]]> ∅)))))
    as H.
  destruct H as (Hsentinel & Hout & _ & Hstore).
  - reflexivity.
  - vm_compute. reflexivity.
  - vm_compute. reflexivity.
  - vm_compute. reflexivity.
  - vm_compute. reflexivity.
  - exists "sha256", "ab12". reflexivity.
  - vm_compute. reflexivity.
  - split; [exact Hsentinel|]. split; [exact Hout|].
    rewrite Hstore. vm_compute. reflexivity.
Defined.

(** ** A pass that finds the target up to date *)

Section quiet.
Implicit Types (c : Cluster) (o : OCISecret).

Lemma quiet_step_refl c : quiet_step c c.
Proof.
  split; [done|]. split; [done|]. exists []. by rewrite app_nil_r.
Qed.

Lemma quiet_step_after_call ev c c' :
  is_write ev = false → quiet_step c c' → quiet_step c (after_call ev c').
Proof.
  intros Hev (Ho & Hs & evs & Ht & Hq).
  split; [done|]. split; [done|]. exists (evs ++ [ev])%list. split.
  - simpl. by rewrite Ht, app_assoc.
  - apply Forall_app. split; [done|]. by constructor.
Qed.

Lemma quiet_step_record ev c c' :
  is_write ev = false → quiet_step c c' → quiet_step c (record ev c').
Proof.
  intros Hev (Ho & Hs & evs & Ht & Hq).
  split; [done|]. split; [done|]. exists (evs ++ [ev])%list. split.
  - simpl. by rewrite Ht, app_assoc.
  - apply Forall_app. split; [done|]. by constructor.
Qed.

Lemma quiet_step_new_events c c' :
  quiet_step c c' →
  secrets c' = secrets c
  ∧ Forall (fun ev => is_write ev = false) (new_events c c').
Proof.
  intros (_ & Hs & evs & Ht & Hq). split; [done|].
  by rewrite (new_events_after c evs c').
Qed.

End quiet.

Ltac quiet :=
  cbn [fst snd];
  first [ assumption
        | apply quiet_step_refl
        | apply quiet_step_after_call; [reflexivity | quiet]
        | apply quiet_step_record; [reflexivity | quiet] ].

Section idempotence.
Import controller.
Variable env : orasclient.Env.
Implicit Types (c : Cluster) (o : OCISecret) (secretData : string).

(** Steps 3 to 5 on a target whose annotation is the current digest and
    whose entries are as many as the listed files: reads only. *)
Lemma syncTarget_quiet o secretData c0 c t d :
  digest_unchanged env o d →
  quiet_step c0 c →
  secrets c !! target_key o = Some t →
  gomap_index (Annotations t) rev = d →
  gomap_len (Data t) = length (Files (Spec o)) →
  quiet_step c0 (syncTarget env o secretData c).1.
Proof.
  intros [Hpin _] Hq Ht Hrev Hlen. unfold syncTarget.
  destruct (orasclient.GetDigest env _ _ _) as [d'|v] eqn:Hd;
    [|quiet].
  apply Hpin in Hd as ->. fold (target_key o).
  run_api.
  - destruct (IsNotFound e) eqn:Hnf.
    + destruct Hcall as [[Hn _]|?]; congruence.
    + quiet.
  - run_api; [quiet|].
    assert (s0 = t) as -> by congruence.
    assert (needsUpdate t d (Files (Spec o)) = false) as ->
      by (by apply needsUpdate_false).
    quiet.
Qed.

(** A pass on a cluster that either ends in step 2 or holds an
    up-to-date target reads only. *)
Lemma Reconcile_quiet req c o d :
  ocisecrets c !! req = Some o →
  digest_unchanged env o d →
  (pull_secret_set o
   ∧ ∃ ps, secrets c !! pull_secret_key o = Some ps
           ∧ dockerconfigjson (Data ps) = "")
  ∨ (∃ t, secrets c !! target_key o = Some t
          ∧ gomap_index (Annotations t) rev = d
          ∧ gomap_len (Data t) = length (Files (Spec o))) →
  quiet_step c (Reconcile env req c).1.
Proof.
  intros Ho Hpin Hstate.
  destruct (Get_OCISecret req c) as [c1 [err|o']] eqn:Hget.
  - unfold Reconcile. rewrite Hget.
    apply Get_OCISecret_inv in Hget as [-> _].
    destruct (IsNotFound err); quiet.
  - rewrite (Reconcile_loaded env req c c1 o' Hget).
    apply Get_OCISecret_inv in Hget as [-> Ho'].
    assert (o' = o) as -> by congruence.
    destruct (getPullSecret o _) as [c2 fl] eqn:Hps.
    apply getPullSecret_inv in Hps. destruct fl as [secretData|res err].
    + destruct Hstate as [(Hset & ps & Hps1 & Hd1)|(t & Ht & Hrev & Hlen)].
      * destruct Hps as [[Hn _]|(_ & _ & Hne & ps' & Hps2 & Hd2)]; [done|].
        simpl in Hps2. congruence.
      * apply (syncTarget_quiet o secretData c c2 t d); try done.
        -- destruct Hps as [(_ & -> & _)|(_ & -> & _)]; quiet.
        -- by destruct Hps as [(_ & -> & _)|(_ & -> & _)].
    + destruct Hps as (_ & -> & _). quiet.
Qed.

Lemma updateTarget_post o secretData t c0 c d :
  digest_unchanged env o d →
  ocisecrets c = ocisecrets c0 →
  secret_key t = target_key o →
  match updateTarget env o secretData t c with
  | (c', Done _ None) => target_annotated o d c0 c'
  | _ => True
  end.
Proof.
  intros [_ Hpin] Hoc Hkey. unfold updateTarget.
  destruct (orasclient.GetFiles env _ _ _) as [content|v] eqn:Hfiles;
    [|done].
  apply Hpin in Hfiles.
  destruct (Annotations t) as [annotations|]; [|done].
  run_api; [done|].
  destruct Hcall as [_ ->]. split; [done|].
  eexists. split.
  - simpl. unfold secret_key at 1; simpl. fold (secret_key t).
    rewrite Hkey. apply lookup_insert_eq.
  - unfold gomap_index; simpl. by rewrite lookup_insert_eq.
Qed.

Lemma syncTarget_post o secretData c0 c d :
  stored_under_own_name c →
  digest_unchanged env o d →
  ocisecrets c = ocisecrets c0 →
  match syncTarget env o secretData c with
  | (c', Done _ None) => target_annotated o d c0 c'
  | _ => True
  end.
Proof.
  intros Hwf Hpin Hoc. unfold syncTarget.
  destruct (orasclient.GetDigest env _ _ _) as [d'|v] eqn:Hd; [|done].
  apply (proj1 Hpin) in Hd as ->. fold (target_key o).
  run_api.
  - destruct (IsNotFound e); [|done].
    destruct Hcall as [[Hnone _]|?]; [|done].
    run_api.
    + subst. run_api; [done|]. congruence.
    + destruct Hcall as [_ ->]. run_api; [done|].
      change (secret_key (newTargetSecret o)) with (target_key o) in Hcall.
      rewrite lookup_insert_eq in Hcall. injection Hcall as <-.
      destruct (needsUpdate _ _ _) eqn:Hup.
      * by apply updateTarget_post.
      * apply needsUpdate_false in Hup as [Hrev _].
        split; [done|]. eexists. split; [|exact Hrev].
        simpl. change (secret_key (newTargetSecret o)) with (target_key o).
        apply lookup_insert_eq.
  - run_api; [done|].
    destruct (needsUpdate _ _ _) eqn:Hup.
    + apply updateTarget_post; [done|done|]. by apply Hwf.
    + apply needsUpdate_false in Hup as [Hrev _].
      split; [done|]. by exists s0.
Qed.

Lemma Reconcile_post req c o d c' res :
  stored_under_own_name c →
  ocisecrets c !! req = Some o →
  digest_unchanged env o d →
  Reconcile env req c = (c', Done res None) →
  ocisecrets c' = ocisecrets c
  ∧ ((pull_secret_set o
      ∧ ∃ ps, secrets c' !! pull_secret_key o = Some ps
              ∧ dockerconfigjson (Data ps) = "")
     ∨ ∃ t, secrets c' !! target_key o = Some t
            ∧ gomap_index (Annotations t) rev = d).
Proof.
  intros Hwf Ho Hpin.
  destruct (Get_OCISecret req c) as [c1 [err|o']] eqn:Hget.
  - unfold Reconcile. rewrite Hget.
    apply Get_OCISecret_inv in Hget as [-> Hr].
    destruct Hr as [[Hn _]|Hnf]; [congruence|]. by rewrite Hnf.
  - rewrite (Reconcile_loaded env req c c1 o' Hget).
    apply Get_OCISecret_inv in Hget as [-> Ho'].
    assert (o' = o) as -> by congruence.
    destruct (getPullSecret o _) as [c2 fl] eqn:Hps.
    apply getPullSecret_inv in Hps. destruct fl as [secretData|res' err].
    + intros Hsync.
      assert (secrets c2 = secrets c ∧ ocisecrets c2 = ocisecrets c)
        as [Hs2 Ho2]
        by (by destruct Hps as [(_ & -> & _)|(_ & -> & _)]).
      pose proof (syncTarget_post o secretData c c2 d) as Hpost.
      rewrite Hsync in Hpost.
      destruct Hpost as [Hoc Ht]; [|done|done|by split; [|right]].
      intros key obj. rewrite Hs2. apply Hwf.
    + intros [= -> -> ->].
      destruct Hps as (Hset & -> & _ & ps & Hps & Hd).
      split; [done|]. left. split; [done|]. by exists ps.
Qed.

End idempotence.

(** The registry of the examples answers every request with [digest1]. *)
Lemma env_ok_digest_unchanged o :
  digest_unchanged examples.env_ok o examples.digest1.
Proof.
  split.
  - intros creds d'. unfold orasclient.GetDigest, orasclient.CreateClient.
    simpl. case_bool_decide; simpl; by intros [= <-].
  - intros creds content.
    unfold orasclient.GetFiles, orasclient.CreateClient.
    simpl. case_bool_decide; simpl; by intros [= <-].
Qed.

(** C4, as stated, fails: with a listed file that the artifact does not
    contain, the first pass leaves one entry for two listed files, and the
    second pass, against the same digest, fetches the content and updates
    the target again. *)
Lemma second_pass_writes_counterexample :
  let c0 := examples.cluster_new ["a.txt"; "c.txt"] in
  let c1 := (controller.Reconcile examples.env_ok examples.req1 c0).1 in
  let c2 := (controller.Reconcile examples.env_ok examples.req1 c1).1 in
  (controller.Reconcile examples.env_ok examples.req1 c0).2
  = controller.Done (controller.mkResult false (60 * controller.Second)) None
  ∧ new_events c1 c2
    = [ EvGetOCISecret examples.req1;
        EvGetDigest "registry.example/conf" "v1" [];
        EvGetSecret ("apps", "target");
        EvGetSecret ("apps", "target");
        EvGetFiles "registry.example/conf" "v1" [];
        EvUpdate (examples.synced_target {[ "a.txt" := [x61] ]}) ].
Proof. split; vm_compute; reflexivity. Qed.

(** C4, amended. When a pass returned a nil error and left as many entries
    in the target as [Spec.Sync.Files] lists, the next pass against the same
    digest writes nothing: the stores are unchanged and the pass neither
    fetches the content nor creates or updates a Secret. *)
Theorem second_pass_writes_nothing
    (env : orasclient.Env) (req : NamespacedName) (c0 c1 : Cluster)
    (o : OCISecret) (t : Secret) (d : string) (res : controller.Result) :
  stored_under_own_name c0 →
  ocisecrets c0 !! req = Some o →
  digest_unchanged env o d →
  controller.Reconcile env req c0 = (c1, controller.Done res None) →
  secrets c1 !! target_key o = Some t →
  gomap_len (Data t) = length (Files (Spec o)) →
  secrets (controller.Reconcile env req c1).1 = secrets c1
  ∧ Forall (fun ev => is_write ev = false)
      (new_events c1 (controller.Reconcile env req c1).1).
Proof.
  intros Hwf Ho Hpin Hfirst Ht Hlen.
  destruct (Reconcile_post env req c0 o d c1 res Hwf Ho Hpin Hfirst)
    as [Hoc Hstate].
  apply quiet_step_new_events, (Reconcile_quiet env req c1 o d).
  - by rewrite Hoc.
  - done.
  - destruct Hstate as [?|(t' & Ht' & Hrev)]; [by left|].
    right. exists t. assert (t' = t) as -> by congruence. done.
Qed.

Lemma second_pass_writes_nothing_witness :
  let c0 := examples.cluster_new ["a.txt"] in
  let c1 := (controller.Reconcile examples.env_ok examples.req1 c0).1 in
  secrets (controller.Reconcile examples.env_ok examples.req1 c1).1
  = secrets c1
  ∧ Forall (fun ev => is_write ev = false)
      (new_events c1 (controller.Reconcile examples.env_ok examples.req1 c1).1).
Proof.
  intros c0 c1.
  apply (second_pass_writes_nothing examples.env_ok examples.req1 c0 c1
           (examples.ocisecret ["a.txt"] examples.anonymous)
           (examples.synced_target {[ "a.txt" := [x61] ]})
           examples.digest1
           (controller.mkResult false (60 * controller.Second))).
  - intros key obj Hl. vm_compute in Hl. discriminate Hl.
  - vm_compute. reflexivity.
  - apply env_ok_digest_unchanged.
  - vm_compute. reflexivity.
  - vm_compute. reflexivity.
  - vm_compute. reflexivity.
Defined.

(** ** The trigger of step 4b *)

(** C1, on the code: with an empty [Spec.Sync.Files] ("sync all") and a
    target whose annotation already equals the current digest, the pass
    still fetches the content and updates the target, because the two
    entries of the target are not as many as the zero listed files. *)
Theorem trigger_fires_for_empty_file_list :
  let c := examples.cluster_sync_all in
  let o := examples.ocisecret [] examples.anonymous in
  let t := examples.synced_target {[ "a.txt" := [x61]; "b.txt" := [x62] ]} in
  ocisecrets c !! examples.req1 = Some o
  ∧ secrets c !! target_key o = Some t
  ∧ Files (Spec o) = []
  ∧ orasclient.GetDigest examples.env_ok (ArtefactRegistry (Spec o))
      (OrasArtefact (Spec o)) []
    = Ret (gomap_index (Annotations t) controller.rev)
  ∧ controller.needsUpdate t examples.digest1 (Files (Spec o)) = true
  ∧ new_events c (controller.Reconcile examples.env_ok examples.req1 c).1
    = [ EvGetOCISecret examples.req1;
        EvGetDigest "registry.example/conf" "v1" [];
        EvGetSecret ("apps", "target");
        EvGetSecret ("apps", "target");
        EvGetFiles "registry.example/conf" "v1" [];
        EvUpdate t ].
Proof. repeat split; vm_compute; reflexivity. Qed.

(** * Further properties of the code *)

(** ** FilterMapInPlace, continued *)

Section filter_more.
Context {V : Type}.
Implicit Types (g : gmap string V) (m : gomap V) (L : list string).

(** Two runs of the filter on the same map agree as soon as they agree on
    every key. *)
Lemma FilterMapInPlace_ext m L1 L2 :
  (∀ key, gomap_lookup (utils.FilterMapInPlace m L1) key
          = gomap_lookup (utils.FilterMapInPlace m L2) key) →
  utils.FilterMapInPlace m L1 = utils.FilterMapInPlace m L2.
Proof.
  destruct m as [g|]; [|done]. intros Hl. simpl. f_equal.
  apply map_eq. exact Hl.
Qed.

Lemma FilterMapInPlace_subseteq g L g' :
  utils.FilterMapInPlace (Some g) L = Some g' → g' ⊆ g.
Proof.
  intros Heq. apply map_subseteq_spec. intros key v Hv.
  pose proof (FilterMapInPlace_lookup (Some g) L key) as Hl.
  rewrite Heq in Hl. simpl in Hl. rewrite Hv in Hl.
  by case_decide.
Qed.

Lemma size_list_to_set_le L :
  (size (list_to_set L : gset string) ≤ length L)%nat.
Proof.
  induction L as [|k L IH].
  - rewrite list_to_set_nil. by rewrite size_empty.
  - rewrite list_to_set_cons, size_union_alt, size_singleton.
    assert (size (list_to_set L ∖ {[k]} : gset string)
            ≤ size (list_to_set L : gset string))%nat
      by (apply subseteq_size, subseteq_difference_l; done).
    simpl. lia.
Qed.

End filter_more.

Lemma gomap_ext {V} (m1 m2 : gomap V) :
  (m1 = None ↔ m2 = None) →
  (∀ key, gomap_lookup m1 key = gomap_lookup m2 key) →
  m1 = m2.
Proof.
  destruct m1 as [g1|], m2 as [g2|]; intros [H1 H2] Hl; try done.
  - f_equal. apply map_eq. exact Hl.
  - by specialize (H2 eq_refl).
  - by specialize (H1 eq_refl).
Qed.

Lemma FilterMapInPlace_nil {V} (m : gomap V) L :
  utils.FilterMapInPlace m L = None ↔ m = None.
Proof. by destruct m. Qed.

(** X1. Filtering twice with the same allow-list changes nothing more. *)
Theorem FilterMapInPlace_idempotent (M : gomap bytes) (L : list string) :
  utils.FilterMapInPlace (utils.FilterMapInPlace M L) L
  = utils.FilterMapInPlace M L.
Proof.
  apply gomap_ext.
  - by rewrite !FilterMapInPlace_nil.
  - intros key. rewrite !FilterMapInPlace_lookup. by case_decide.
Qed.

(** X2. Only the set of allowed keys matters: two allow-lists with the same
    elements, in any order and with any repetitions, filter alike. *)
Theorem FilterMapInPlace_same_elements
    (M : gomap bytes) (L1 L2 : list string) :
  (∀ key, key ∈ L1 ↔ key ∈ L2) →
  utils.FilterMapInPlace M L1 = utils.FilterMapInPlace M L2.
Proof.
  intros Hsame. apply gomap_ext.
  - by rewrite !FilterMapInPlace_nil.
  - intros key. rewrite !FilterMapInPlace_lookup.
    destruct (decide (key ∈ L1)) as [H1|H1], (decide (key ∈ L2)) as [H2|H2];
      try done; exfalso; apply Hsame in H1 || apply Hsame in H2; done.
Qed.

Lemma FilterMapInPlace_same_elements_witness :
  utils.FilterMapInPlace
    (Some {[ "a.txt" := [x61]; "b.txt" := [x62]; "c.txt" := [x63] ]})
    ["b.txt"; "a.txt"; "b.txt"]
  = utils.FilterMapInPlace
      (Some {[ "a.txt" := [x61]; "b.txt" := [x62]; "c.txt" := [x63] ]})
      ["a.txt"; "b.txt"].
Proof.
  apply (FilterMapInPlace_same_elements
           (Some {[ "a.txt" := [x61]; "b.txt" := [x62]; "c.txt" := [x63] ]})
           ["b.txt"; "a.txt"; "b.txt"] ["a.txt"; "b.txt"]).
  intros key. rewrite !elem_of_cons, !elem_of_nil. tauto.
Defined.

(** X3. The filter never adds an entry: the filtered map has at most as
    many entries as the map had and at most as many as the allow-list has
    elements. *)
Theorem FilterMapInPlace_len_le (M : gomap bytes) (L : list string) :
  (gomap_len (utils.FilterMapInPlace M L) ≤ gomap_len M)%nat
  ∧ (gomap_len (utils.FilterMapInPlace M L) ≤ length L)%nat.
Proof.
  destruct M as [g|]; [|simpl; lia].
  destruct (utils.FilterMapInPlace (Some g) L) as [g'|] eqn:Heq; [|done].
  split.
  - simpl. apply map_subseteq_size. by apply (FilterMapInPlace_subseteq g L).
  - pose proof (FilterMapInPlace_keys (Some g) L) as Hk.
    rewrite Heq in Hk. simpl in *.
    rewrite <- (size_dom (D := gset string)), Hk.
    etrans; [|apply size_list_to_set_le].
    apply subseteq_size, intersection_subseteq_r.
Qed.

Lemma FilterMapInPlace_count (M : gomap bytes) (L : list string) :
  NoDup L →
  (∀ key, key ∈ L → key ∈ gomap_keys M) →
  gomap_len (utils.FilterMapInPlace M L) = length L.
Proof.
  intros Hnd Hin. destruct M as [g|].
  - pose proof (FilterMapInPlace_keys (Some g) L) as Hk.
    destruct (utils.FilterMapInPlace (Some g) L) as [g'|] eqn:Heq; [|done].
    simpl in *.
    rewrite <- (size_dom (D := gset string)), Hk.
    rewrite <- (size_list_to_set (C := gset string) L) by done.
    f_equal. apply set_eq. intros key.
    rewrite elem_of_intersection, elem_of_list_to_set.
    split; [by intros [_ ?]|]. intros Hk'. split; [by apply Hin|done].
  - destruct L as [|k L]; [done|].
    assert (k ∈ (∅ : gset string)) as Hk by (apply Hin; by left).
    by apply not_elem_of_empty in Hk.
Qed.

(** X4. When the allow-list has no repetition and names only keys of the
    map, the filtered map has exactly as many entries as the list has
    elements. *)
Theorem FilterMapInPlace_len_exact (M : gomap bytes) (L : list string) :
  NoDup L →
  (∀ key, key ∈ L → key ∈ gomap_keys M) →
  gomap_len (utils.FilterMapInPlace M L) = length L.
Proof. apply FilterMapInPlace_count. Qed.

Lemma FilterMapInPlace_len_exact_witness :
  gomap_len
    (utils.FilterMapInPlace
       (Some {[ "a.txt" := [x61]; "b.txt" := [x62]; "c.txt" := [x63] ]})
       ["c.txt"; "a.txt"])
  = 2.
Proof.
  apply (FilterMapInPlace_len_exact
           (Some {[ "a.txt" := [x61]; "b.txt" := [x62]; "c.txt" := [x63] ]})
           ["c.txt"; "a.txt"]).
  - repeat constructor; rewrite ?elem_of_cons, ?elem_of_nil;
      intros H; repeat destruct H as [H|H]; discriminate || done.
  - intros key. rewrite !elem_of_cons, elem_of_nil.
    intros [->|[->|[]]]; apply elem_of_gomap_keys; vm_compute; eauto.
Defined.

(** ** GetFilesContentBinary and GetFiles, continued *)

Section read_entries.
Import orasclient.
Implicit Types (entries : list DirEntry) (acc g : gmap string bytes).

Lemma regular_names_cons entry entries :
  regular_names (entry :: entries)
  = if IsDir entry then regular_names entries
    else entry_Name entry :: regular_names entries.
Proof.
  unfold regular_names. rewrite filter_cons.
  destruct (IsDir entry); by case_decide.
Qed.

Lemma readEntries_skip_dirs entries acc :
  readEntries entries acc
  = readEntries (filter (fun e => IsDir e = false) entries) acc.
Proof.
  revert acc. induction entries as [|entry rest IH]; intros acc; [done|].
  rewrite filter_cons. simpl. destruct (IsDir entry) eqn:Hdir.
  - rewrite decide_False by done. apply IH.
  - rewrite decide_True by done. simpl. rewrite Hdir.
    destruct (ReadFile entry); [done|]. apply IH.
Qed.

Lemma readEntries_first_failure pre entry post cause acc :
  Forall (fun e => IsDir e = true ∨ ∃ content, ReadFile e = inr content) pre →
  IsDir entry = false →
  ReadFile entry = inl cause →
  readEntries (pre ++ entry :: post) acc
  = (None, Some (ErrWrapped ("fehler beim Lesen der Datei "
                               ++ entry_Name entry) cause)).
Proof.
  intros Hpre Hreg Hread. revert acc.
  induction Hpre as [|e pre He Hpre IH]; intros acc; simpl.
  - by rewrite Hreg, Hread.
  - destruct (IsDir e) eqn:Hdir; [apply IH|].
    destruct He as [?|[content ->]]; [done|]. apply IH.
Qed.

Lemma readEntries_contents entries acc g :
  NoDup (regular_names entries) →
  (∀ name, name ∈ regular_names entries → acc !! name = None) →
  readEntries entries acc = (Some g, None) →
  (∀ entry content,
     entry ∈ entries → IsDir entry = false → ReadFile entry = inr content →
     g !! entry_Name entry = Some content)
  ∧ (∀ name, name ∉ regular_names entries → g !! name = acc !! name)
  ∧ size g = (size acc + length (regular_names entries))%nat.
Proof.
  revert acc. induction entries as [|entry rest IH]; intros acc.
  - intros _ _ [= <-]. split; [|split; [done|simpl; lia]].
    intros entry content Hin. by apply elem_of_nil in Hin.
  - rewrite regular_names_cons. simpl. destruct (IsDir entry) eqn:Hdir.
    + intros Hnd Hfresh Hrun.
      destruct (IH acc Hnd Hfresh Hrun) as (Hall & Hout & Hsize).
      split; [|done].
      intros e content [->|Hin]%elem_of_cons Hreg; [congruence|eauto].
    + intros [Hnew Hnd]%NoDup_cons Hfresh.
      destruct (ReadFile entry) as [cause|c] eqn:Hread; [done|].
      intros Hrun.
      destruct (IH (<[entry_Name entry := c]> acc) Hnd) as
        (Hall & Hout & Hsize); [|done|].
      { intros name Hin. rewrite lookup_insert_ne by congruence.
        apply Hfresh. by right. }
      split; [|split].
      * intros e content [->|Hin]%elem_of_cons Hreg Hcontent; [|eauto].
        rewrite Hout by done. rewrite lookup_insert_eq. congruence.
      * intros name [Hne Hnotin]%not_elem_of_cons.
        rewrite Hout by done. by rewrite lookup_insert_ne.
      * rewrite Hsize, map_size_insert_None; [simpl; lia|].
        apply Hfresh. by left.
Qed.

Lemma GetFilesContentBinary_error_nil dir files err :
  GetFilesContentBinary dir = (files, Some err) → files = None.
Proof.
  destruct dir as [cause|entries]; simpl; [by intros [= <- _]|].
  intros Hrun. pose proof (readEntries_cases entries ∅) as H.
  rewrite Hrun in H. by destruct H.
Qed.

End read_entries.

(** X5. Subdirectories of the staging directory are skipped, read or
    unreadable: the result is that of the listing without them. *)
Theorem GetFilesContentBinary_skips_directories
    (entries : list orasclient.DirEntry) :
  orasclient.GetFilesContentBinary (inr entries)
  = orasclient.GetFilesContentBinary
      (inr (filter (fun e => orasclient.IsDir e = false) entries)).
Proof. simpl. apply readEntries_skip_dirs. Qed.

(** X6. The first regular file that cannot be read ends the reading: the
    result is the nil map and an error that names this file and wraps the
    cause, whatever comes after it in the listing. *)
Theorem GetFilesContentBinary_first_failure
    (pre post : list orasclient.DirEntry) (entry : orasclient.DirEntry)
    (cause : error) :
  Forall (fun e => orasclient.IsDir e = true
                   ∨ ∃ content, orasclient.ReadFile e = inr content) pre →
  orasclient.IsDir entry = false →
  orasclient.ReadFile entry = inl cause →
  orasclient.GetFilesContentBinary (inr (pre ++ entry :: post)%list)
  = (None, Some (ErrWrapped ("fehler beim Lesen der Datei "
                               ++ orasclient.entry_Name entry) cause)).
Proof. intros. simpl. by apply readEntries_first_failure. Qed.

Lemma GetFilesContentBinary_first_failure_witness :
  orasclient.GetFilesContentBinary
    (inr ([examples.sub_dir; examples.a_txt]
            ++ examples.locked_txt :: [examples.b_txt])%list)
  = (None, Some (ErrWrapped "fehler beim Lesen der Datei locked.txt"
                   (ErrLib "permission denied"))).
Proof.
  apply (GetFilesContentBinary_first_failure
           [examples.sub_dir; examples.a_txt] [examples.b_txt]
           examples.locked_txt (ErrLib "permission denied")).
  - constructor; [left; reflexivity|].
    constructor; [right; by exists [x61] | constructor].
  - reflexivity.
  - reflexivity.
Defined.

(** X7. When the regular files of the listing have distinct names and the
    reading succeeds, the map holds every regular file under its name with
    the bytes read, and as many entries as there are regular files. *)
Theorem GetFilesContentBinary_contents
    (entries : list orasclient.DirEntry) (g : gmap string bytes) :
  NoDup (regular_names entries) →
  orasclient.GetFilesContentBinary (inr entries) = (Some g, None) →
  (∀ entry content,
     entry ∈ entries → orasclient.IsDir entry = false →
     orasclient.ReadFile entry = inr content →
     g !! orasclient.entry_Name entry = Some content)
  ∧ size g = length (regular_names entries).
Proof.
  intros Hnd Hrun. simpl in Hrun.
  destruct (readEntries_contents entries ∅ g Hnd) as (Hall & _ & Hsize);
    [by intros; apply lookup_empty | done |].
  split; [done|]. by rewrite Hsize, map_size_empty.
Qed.

Lemma GetFilesContentBinary_contents_witness :
  let entries := [examples.sub_dir; examples.a_txt; examples.b_txt] in
  let g : gmap string bytes := {[ "a.txt" := [x61]; "b.txt" := [x62] ]} in
  (∀ entry content,
     entry ∈ entries → orasclient.IsDir entry = false →
     orasclient.ReadFile entry = inr content →
     g !! orasclient.entry_Name entry = Some content)
  ∧ size g = length (regular_names entries).
Proof.
  intros entries g.
  apply (GetFilesContentBinary_contents entries g).
  - vm_compute. repeat constructor; rewrite ?elem_of_cons, ?elem_of_nil;
      intros H; repeat destruct H as [H|H]; discriminate || done.
  - vm_compute. reflexivity.
Defined.

Lemma GetFiles_read_error
    (env : orasclient.Env) (registy tag tmpdir d : string) (creds : bytes)
    (repo : orasclient.Repository) (dir : error + list orasclient.DirEntry)
    (err : error) :
  orasclient.MkdirTemp env = inr tmpdir →
  orasclient.file_New env tmpdir = None →
  orasclient.CreateClient env registy creds = Ret repo →
  orasclient.Copy env repo tag = inr (d, dir) →
  (orasclient.GetFilesContentBinary dir).2 = Some err →
  orasclient.GetFiles env registy tag creds
  = Ret (orasclient.mkFilemap d None).
Proof.
  intros Htmp Hnew Hclient Hcopy Herr. unfold orasclient.GetFiles.
  rewrite Htmp, Hnew, Hclient, Hcopy.
  destruct (orasclient.GetFilesContentBinary dir) as [files e] eqn:Hread.
  simpl in Herr. subst e.
  by apply GetFilesContentBinary_error_nil in Hread as ->.
Qed.

(** X8. [GetFiles] drops the error of [GetFilesContentBinary]: when the
    transfer succeeded and the staged files cannot be listed or read,
    [GetFiles] neither panics nor reports anything, it returns the digest
    of the copy with a nil file map. *)
Theorem GetFiles_drops_read_error
    (env : orasclient.Env) (registy tag tmpdir d : string) (creds : bytes)
    (repo : orasclient.Repository) (dir : error + list orasclient.DirEntry)
    (err : error) :
  orasclient.MkdirTemp env = inr tmpdir →
  orasclient.file_New env tmpdir = None →
  orasclient.CreateClient env registy creds = Ret repo →
  orasclient.Copy env repo tag = inr (d, dir) →
  (orasclient.GetFilesContentBinary dir).2 = Some err →
  orasclient.GetFiles env registy tag creds
  = Ret (orasclient.mkFilemap d None).
Proof. apply GetFiles_read_error. Qed.

Lemma GetFiles_drops_read_error_witness :
  orasclient.GetFiles examples.env_read_fails "registry.example/conf" "v1" []
  = Ret (orasclient.mkFilemap examples.digest1 None).
Proof.
  apply (GetFiles_drops_read_error examples.env_read_fails
           "registry.example/conf" "v1" "/tmp/oras123" examples.digest1 []
           (orasclient.mkRepository "registry.example/conf"
              (orasclient.mkClient None))
           (inr [examples.a_txt; examples.locked_txt; examples.b_txt])
           (ErrWrapped "fehler beim Lesen der Datei locked.txt"
              (ErrLib "permission denied"))).
  - reflexivity.
  - reflexivity.
  - reflexivity.
  - reflexivity.
  - reflexivity.
Defined.

(** ** What a pass can do to the stores *)

Section effects.
Import controller.
Variable env : orasclient.Env.
Implicit Types (c : Cluster) (o : OCISecret) (secretData : string).

Lemma pass_effect_none o c c' out :
  ocisecrets c' = ocisecrets c → secrets c' = secrets c →
  pass_effect o c c' out.
Proof. intros Ho Hs. split; [done|]. exists (secrets c). split; by left. Qed.

Lemma updateTarget_effect o secretData t c base :
  secrets c = base →
  base !! target_key o = Some t →
  (secrets (updateTarget env o secretData t c).1 = base
   ∨ ∃ t', secret_key t' = secret_key t
           ∧ secrets (updateTarget env o secretData t c).1
             = <[secret_key t := t']> base
           ∧ (updateTarget env o secretData t c).2
             = Done (mkResult false (60 * Second)) None)
  ∧ ocisecrets (updateTarget env o secretData t c).1 = ocisecrets c.
Proof.
  intros Hbase Ht. unfold updateTarget.
  destruct (orasclient.GetFiles env _ _ _) as [content|v]; [|by split; [left|]].
  destruct (Annotations t) as [annotations|]; [|by split; [left|]].
  run_api.
  - subst. by split; [left|].
  - destruct Hcall as [_ ->]. split; [|done]. right.
    eexists. split; [|split; [|done]]; [|simpl; by rewrite Hbase]. done.
Qed.

Lemma syncTarget_effect o secretData c :
  pass_effect o c (syncTarget env o secretData c).1
    (syncTarget env o secretData c).2.
Proof.
  unfold syncTarget.
  destruct (orasclient.GetDigest env _ _ _) as [d|v];
    [|by apply pass_effect_none].
  fold (target_key o).
  assert (∀ t c1 base,
    ocisecrets c1 = ocisecrets c → secrets c1 = base →
    (base = secrets c
     ∨ (secrets c !! target_key o = None
        ∧ base = <[target_key o := newTargetSecret o]> (secrets c))) →
    base !! target_key o = Some t →
    pass_effect o c
      (if needsUpdate t d (Files (Spec o))
       then updateTarget env o secretData t c1
       else (c1, Done (mkResult false (60 * Second)) None)).1
      (if needsUpdate t d (Files (Spec o))
       then updateTarget env o secretData t c1
       else (c1, Done (mkResult false (60 * Second)) None)).2) as Hfinish.
  { intros t c1 base Hoc Hs Hbase Ht.
    destruct (needsUpdate t d (Files (Spec o))).
    - destruct (updateTarget_effect o secretData t c1 base Hs Ht)
        as [Heff Hoc'].
      split; [by rewrite Hoc'|]. exists base. split; [done|].
      destruct Heff as [?|(t' & ? & ? & ?)]; [by left|]. right. by exists t, t'.
    - split; [done|]. exists base. split; [done|]. by left. }
  run_api.
  - destruct (IsNotFound e); [|by apply pass_effect_none].
    destruct Hcall as [[Hnone _]|?]; [|done].
    run_api.
    + subst. run_api; [by apply pass_effect_none|].
      apply (Hfinish _ _ (secrets c)); auto.
    + destruct Hcall as [_ ->].
      change (secret_key (newTargetSecret o)) with (target_key o).
      run_api.
      * split; [done|]. eexists. split; [right; by split|]. by left.
      * apply (Hfinish _ _ (<[target_key o := newTargetSecret o]> (secrets c)));
          auto.
  - run_api; [by apply pass_effect_none|].
    apply (Hfinish _ _ (secrets c)); auto.
Qed.

(** The whole of [Reconcile]: steps 1 and 2 only read. *)
Lemma Reconcile_effect req c :
  ocisecrets (Reconcile env req c).1 = ocisecrets c
  ∧ (secrets (Reconcile env req c).1 = secrets c
     ∨ ∃ o, ocisecrets c !! req = Some o
            ∧ pass_effect o c (Reconcile env req c).1 (Reconcile env req c).2).
Proof.
  destruct (Get_OCISecret req c) as [c1 [err|o]] eqn:Hget.
  - unfold Reconcile. rewrite Hget.
    apply Get_OCISecret_inv in Hget as [-> _].
    destruct (IsNotFound err); by split; [|left].
  - rewrite (Reconcile_loaded env req c c1 o Hget).
    apply Get_OCISecret_inv in Hget as [-> Ho].
    destruct (getPullSecret o _) as [c2 fl] eqn:Hps.
    apply getPullSecret_inv in Hps. destruct fl as [secretData|res err].
    + assert (secrets c2 = secrets c ∧ ocisecrets c2 = ocisecrets c)
        as [Hs2 Ho2]
        by (by destruct Hps as [(_ & -> & _)|(_ & -> & _)]).
      destruct (syncTarget_effect o secretData c2) as (Hoc & base & Hb & Hf).
      split; [by rewrite Hoc|]. right. exists o. split; [done|].
      split; [by rewrite Hoc|]. exists base. rewrite <- Hs2. done.
    + destruct Hps as (_ & -> & _). by split; [|left].
Qed.

End effects.

Section effect_consequences.
Import controller.
Variable env : orasclient.Env.

Lemma insert_under_own_name (S : gmap NamespacedName Secret) key obj :
  (∀ k s, S !! k = Some s → secret_key s = k) →
  secret_key obj = key →
  ∀ k s, <[key := obj]> S !! k = Some s → secret_key s = k.
Proof.
  intros Hwf Hkey k s [[<- <-]|[_ Hl]]%lookup_insert_Some; [done|].
  by apply Hwf.
Qed.

Lemma pass_effect_frame o c c' out key :
  stored_under_own_name c → pass_effect o c c' out →
  key ≠ target_key o →
  secrets c' !! key = secrets c !! key.
Proof.
  intros Hwf (_ & base & Hbase & Hfinal) Hne.
  assert (base !! key = secrets c !! key) as Hb.
  { destruct Hbase as [->|[_ ->]]; [done|]. by rewrite lookup_insert_ne. }
  assert (∀ k s, base !! k = Some s → secret_key s = k) as Hwfb.
  { destruct Hbase as [->|[_ ->]]; [exact Hwf|].
    by apply insert_under_own_name. }
  destruct Hfinal as [->|(t & t' & Ht & Hkey & -> & _)]; [done|].
  rewrite (Hwfb _ _ Ht). by rewrite lookup_insert_ne.
Qed.

Lemma pass_effect_failed o c c' out key s :
  pass_effect o c c' out → failed out = true →
  secrets c !! key = Some s → secrets c' !! key = Some s.
Proof.
  intros (_ & base & Hbase & Hfinal) Hfail Hs.
  destruct Hfinal as [->|(t & t' & _ & _ & _ & ->)]; [|done].
  destruct Hbase as [->|[Hnone ->]]; [done|].
  rewrite lookup_insert_ne; [done|]. intros <-. congruence.
Qed.

Lemma pass_effect_failed_stores o c c' out :
  pass_effect o c c' out → failed out = true →
  secrets c' = secrets c
  ∨ (secrets c !! target_key o = None
     ∧ secrets c' = <[target_key o := newTargetSecret o]> (secrets c)).
Proof.
  intros (_ & base & Hbase & Hfinal) Hfail.
  destruct Hfinal as [->|(t & t' & _ & _ & _ & ->)]; [|done].
  destruct Hbase as [->|[Hnone ->]]; [by left | by right].
Qed.

Lemma updateTarget_error_empty o secretData t c res err :
  (updateTarget env o secretData t c).2 = Done res (Some err) →
  res = emptyResult.
Proof.
  unfold updateTarget.
  destruct (orasclient.GetFiles env _ _ _); [|done].
  destruct (Annotations t); [|done].
  run_api; simpl; congruence.
Qed.

Lemma syncTarget_error_empty o secretData c res err :
  (syncTarget env o secretData c).2 = Done res (Some err) →
  res = emptyResult.
Proof.
  unfold syncTarget.
  destruct (orasclient.GetDigest env _ _ _); [|done].
  run_api.
  - destruct (IsNotFound e); [|simpl; congruence].
    run_api; (run_api; [simpl; congruence|]);
      (destruct (needsUpdate _ _ _);
         [apply updateTarget_error_empty | done]).
  - run_api; [simpl; congruence|].
    destruct (needsUpdate _ _ _); [apply updateTarget_error_empty | done].
Qed.

End effect_consequences.

(** X10. A pass never touches an OCISecret, and of the Secrets it can only
    change the target: every Secret under another key is after the pass
    what it was before (the Secrets being stored under their own names). *)
Theorem Reconcile_changes_only_the_target
    (env : orasclient.Env) (req key : NamespacedName) (c : Cluster)
    (o : OCISecret) :
  stored_under_own_name c →
  ocisecrets c !! req = Some o →
  key ≠ target_key o →
  ocisecrets (controller.Reconcile env req c).1 = ocisecrets c
  ∧ secrets (controller.Reconcile env req c).1 !! key = secrets c !! key.
Proof.
  intros Hwf Ho Hne.
  destruct (Reconcile_effect env req c) as [Hoc [Hs|(o' & Ho' & Heff)]].
  - by rewrite Hs.
  - assert (o' = o) as -> by congruence.
    split; [done|]. by apply (pass_effect_frame o c _ _ key Hwf Heff).
Qed.

Lemma Reconcile_changes_only_the_target_witness :
  let c := examples.cluster_with_pull ["a.txt"]
             {[ ("apps", "pull") := examples.pull_with_key;
                ("apps", "target") := examples.stale_target ]} in
  ocisecrets (controller.Reconcile examples.env_ok examples.req1 c).1
  = ocisecrets c
  ∧ secrets (controller.Reconcile examples.env_ok examples.req1 c).1
    !! ("apps", "pull")
    = secrets c !! ("apps", "pull").
Proof.
  intros c.
  apply (Reconcile_changes_only_the_target examples.env_ok examples.req1
           ("apps", "pull") c (examples.ocisecret ["a.txt"] examples.pull_ref)).
  - intros key obj Hl. simpl in Hl.
    apply lookup_insert_Some in Hl as [[<- <-]|[_ Hl]]; [reflexivity|].
    by apply lookup_singleton_Some in Hl as [<- <-].
  - vm_compute. reflexivity.
  - discriminate.
Defined.

(** X11. A pass that ends with an error or a panic leaves every Secret that
    existed before it as it was, and can at most have created the
    placeholder target: the Secrets after the pass are those before it,
    or those before it with the placeholder added where no target was. *)
Theorem failed_pass_keeps_secrets
    (env : orasclient.Env) (req : NamespacedName) (c : Cluster) :
  failed (controller.Reconcile env req c).2 = true →
  (secrets (controller.Reconcile env req c).1 = secrets c
   ∨ ∃ o, ocisecrets c !! req = Some o
          ∧ secrets c !! target_key o = None
          ∧ secrets (controller.Reconcile env req c).1
            = <[target_key o := controller.newTargetSecret o]> (secrets c))
  ∧ ∀ key s, secrets c !! key = Some s →
             secrets (controller.Reconcile env req c).1 !! key = Some s.
Proof.
  intros Hfail.
  destruct (Reconcile_effect env req c) as [_ [Hsame|(o & Ho & Heff)]].
  - split; [by left|]. intros key s. by rewrite Hsame.
  - split.
    + destruct (pass_effect_failed_stores o c _ _ Heff Hfail)
        as [?|[? ?]]; [by left|]. right. by exists o.
    + intros key s. by apply (pass_effect_failed o c _ _ key s Heff).
Qed.

Lemma failed_pass_keeps_secrets_witness :
  let c := examples.cluster_with_pull ["a.txt"]
             {[ ("apps", "pull") := examples.pull_with_key ]} in
  let R := controller.Reconcile examples.env_copy_fails examples.req1 c in
  failed R.2 = true
  ∧ (secrets R.1 = secrets c
     ∨ ∃ o, ocisecrets c !! examples.req1 = Some o
            ∧ secrets c !! target_key o = None
            ∧ secrets R.1
              = <[target_key o := controller.newTargetSecret o]> (secrets c))
  ∧ ∀ key s, secrets c !! key = Some s → secrets R.1 !! key = Some s.
Proof.
  intros c R.
  assert (failed R.2 = true) as Hfail by (vm_compute; reflexivity).
  split; [exact Hfail|].
  exact (failed_pass_keeps_secrets examples.env_copy_fails examples.req1 c
           Hfail).
Defined.

(** X12. Whenever [Reconcile] returns an error, the result beside it is the
    empty [ctrl.Result]: the 60 seconds are only returned with a nil
    error. *)
Theorem error_comes_with_empty_result
    (env : orasclient.Env) (req : NamespacedName) (c : Cluster)
    (res : controller.Result) (err : error) :
  (controller.Reconcile env req c).2 = controller.Done res (Some err) →
  res = controller.emptyResult.
Proof.
  destruct (Get_OCISecret req c) as [c1 [e|o]] eqn:Hget.
  - unfold controller.Reconcile. rewrite Hget.
    destruct (IsNotFound e); simpl; congruence.
  - rewrite (Reconcile_loaded env req c c1 o Hget).
    destruct (controller.getPullSecret o c1) as [c2 fl] eqn:Hps.
    apply getPullSecret_inv in Hps. destruct fl as [secretData|res' err'].
    + apply syncTarget_error_empty.
    + destruct Hps as (_ & _ & -> & _). simpl. congruence.
Qed.

Lemma error_comes_with_empty_result_witness :
  let c := examples.cluster_with ["a.txt"] ∅ [None; Some "etcd timeout"] in
  ∃ res, (controller.Reconcile examples.env_ok examples.req1 c).2
         = controller.Done res (Some (ErrAPI "etcd timeout"))
         ∧ res = controller.emptyResult.
Proof.
  intros c. eexists. split; [vm_compute; reflexivity|].
  apply (error_comes_with_empty_result examples.env_ok examples.req1 c
           _ (ErrAPI "etcd timeout")).
  vm_compute. reflexivity.
Defined.

(** ** Step 2, continued *)

(** X13. When the pull secret is named and cannot be read (it does not
    exist, or the read fails), the pass ends with that error: the registry
    is not contacted and no Secret is written. *)
Theorem unreadable_pull_secret_ends_pass
    (env : orasclient.Env) (req : NamespacedName) (c c1 c2 : Cluster)
    (o : OCISecret) (err : error) :
  Get_OCISecret req c = (c1, inr o) →
  pull_secret_set o →
  Get_Secret (pull_secret_key o) c1 = (c2, inl err) →
  controller.Reconcile env req c
  = (c2, controller.Done controller.emptyResult (Some err))
  ∧ secrets c2 = secrets c
  ∧ new_events c c2 = [EvGetOCISecret req; EvGetSecret (pull_secret_key o)].
Proof.
  intros Hget Hset Hpull.
  rewrite (Reconcile_loaded env req c c1 o Hget).
  rewrite getPullSecret_set by done. rewrite Hpull.
  apply Get_OCISecret_inv in Hget as [-> _].
  apply Get_Secret_inv in Hpull as [-> _].
  split; [done|]. split; [done|].
  apply new_events_after. simpl. by rewrite <- app_assoc.
Qed.

Lemma unreadable_pull_secret_ends_pass_witness :
  let c := examples.cluster_with_pull ["a.txt"] ∅ in
  let o := examples.ocisecret ["a.txt"] examples.pull_ref in
  let c1 := after_call (EvGetOCISecret examples.req1) c in
  let c2 := after_call (EvGetSecret (pull_secret_key o)) c1 in
  controller.Reconcile examples.env_ok examples.req1 c
  = (c2, controller.Done controller.emptyResult (Some (ErrNotFound "pull")))
  ∧ secrets c2 = secrets c
  ∧ new_events c c2
    = [EvGetOCISecret examples.req1; EvGetSecret (pull_secret_key o)].
Proof.
  intros c o c1 c2.
  apply (unreadable_pull_secret_ends_pass examples.env_ok examples.req1
           c c1 c2 o (ErrNotFound "pull")).
  - vm_compute. reflexivity.
  - split; vm_compute; discriminate.
  - vm_compute. reflexivity.
Defined.

Lemma string_of_list_byte_nonempty (value : bytes) :
  value ≠ [] → String.string_of_list_byte value ≠ "".
Proof. by destruct value. Qed.

(** X14. The Docker config of the pull secret reaches the registry client
    byte for byte: when the pull secret holds a non-empty value under
    .dockerconfigjson, the digest request that follows is made with exactly
    these bytes, and a client built from them carries them as its
    credentials or panics; it is never anonymous. *)
Theorem pull_secret_bytes_reach_the_client
    (env : orasclient.Env) (req : NamespacedName) (c c1 c2 : Cluster)
    (o : OCISecret) (ps : Secret) (value : bytes) :
  Get_OCISecret req c = (c1, inr o) →
  pull_secret_set o →
  Get_Secret (pull_secret_key o) c1 = (c2, inr ps) →
  gomap_lookup (Data ps) ".dockerconfigjson" = Some value →
  value ≠ [] →
  (trace c2 ++ [EvGetDigest (ArtefactRegistry (Spec o))
                  (OrasArtefact (Spec o)) value])%list
  `prefix_of` trace (controller.Reconcile env req c).1
  ∧ match orasclient.CreateClient env (ArtefactRegistry (Spec o)) value with
    | Ret repo =>
        orasclient.Credential (orasclient.repo_Client repo) = Some value
    | Panic v =>
        orasclient.NewRepository env (ArtefactRegistry (Spec o)) = Some v
        ∨ orasclient.NewMemoryStoreFromDockerConfig env value = Some v
    end.
Proof.
  intros Hget Hset Hpull Hkey Hne. split.
  - rewrite (Reconcile_loaded env req c c1 o Hget).
    rewrite getPullSecret_set by done. rewrite Hpull.
    rewrite dockerconfigjson_lookup, Hkey.
    rewrite bool_decide_eq_false_2 by by apply string_of_list_byte_nonempty.
    rewrite <- (list_byte_of_string_of_list_byte value) at 1.
    apply syncTarget_trace.
  - pose proof (CreateClient_cases env (ArtefactRegistry (Spec o)) value) as H.
    destruct (orasclient.CreateClient env _ _).
    + destruct H as (_ & _ & [[? _]|(_ & _ & ?)]); done.
    + destruct H as [?|[_ ?]]; auto.
Qed.

Lemma pull_secret_bytes_reach_the_client_witness :
  let c := examples.cluster_with_pull ["a.txt"]
             {[ ("apps", "pull") := examples.pull_with_key ]} in
  let o := examples.ocisecret ["a.txt"] examples.pull_ref in
  let c2 := after_call (EvGetSecret (pull_secret_key o))
              (after_call (EvGetOCISecret examples.req1) c) in
  (trace c2 ++ [EvGetDigest (ArtefactRegistry (Spec o))
                  (OrasArtefact (Spec o)) [x7b; x7d]])%list
  `prefix_of` trace (controller.Reconcile examples.env_ok examples.req1 c).1
  ∧ match orasclient.CreateClient examples.env_ok
            (ArtefactRegistry (Spec o)) [x7b; x7d] with
    | Ret repo =>
        orasclient.Credential (orasclient.repo_Client repo)
        = Some [x7b; x7d]
    | Panic v =>
        orasclient.NewRepository examples.env_ok (ArtefactRegistry (Spec o))
        = Some v
        ∨ orasclient.NewMemoryStoreFromDockerConfig examples.env_ok
            [x7b; x7d] = Some v
    end.
Proof.
  intros c o c2.
  apply (pull_secret_bytes_reach_the_client examples.env_ok examples.req1
           c (after_call (EvGetOCISecret examples.req1) c) c2 o
           examples.pull_with_key [x7b; x7d]).
  - vm_compute. reflexivity.
  - split; vm_compute; discriminate.
  - vm_compute. reflexivity.
  - vm_compute. reflexivity.
  - discriminate.
Defined.

(** X15. An empty value under .dockerconfigjson counts as no Docker config:
    the pass ends as for a missing key, with the empty result, a nil error,
    no registry call and no write. *)
Theorem empty_dockerconfig_ends_pass
    (env : orasclient.Env) (req : NamespacedName) (c c1 c2 : Cluster)
    (o : OCISecret) (ps : Secret) :
  Get_OCISecret req c = (c1, inr o) →
  pull_secret_set o →
  Get_Secret (pull_secret_key o) c1 = (c2, inr ps) →
  gomap_lookup (Data ps) ".dockerconfigjson" = Some [] →
  controller.Reconcile env req c
  = (c2, controller.Done controller.emptyResult None)
  ∧ secrets c2 = secrets c
  ∧ new_events c c2 = [EvGetOCISecret req; EvGetSecret (pull_secret_key o)].
Proof.
  intros Hget Hset Hpull Hkey.
  rewrite (Reconcile_loaded env req c c1 o Hget).
  rewrite getPullSecret_set by done. rewrite Hpull.
  rewrite dockerconfigjson_lookup, Hkey. simpl.
  apply Get_OCISecret_inv in Hget as [-> _].
  apply Get_Secret_inv in Hpull as [-> _].
  split; [done|]. split; [done|].
  apply new_events_after. simpl. by rewrite <- app_assoc.
Qed.

Lemma empty_dockerconfig_ends_pass_witness :
  let c := examples.cluster_with_pull ["a.txt"]
             {[ ("apps", "pull") := examples.pull_with_empty_key ]} in
  let o := examples.ocisecret ["a.txt"] examples.pull_ref in
  let c1 := after_call (EvGetOCISecret examples.req1) c in
  let c2 := after_call (EvGetSecret (pull_secret_key o)) c1 in
  controller.Reconcile examples.env_ok examples.req1 c
  = (c2, controller.Done controller.emptyResult None)
  ∧ secrets c2 = secrets c
  ∧ new_events c c2
    = [EvGetOCISecret examples.req1; EvGetSecret (pull_secret_key o)].
Proof.
  intros c o c1 c2.
  apply (empty_dockerconfig_ends_pass examples.env_ok examples.req1
           c c1 c2 o examples.pull_with_empty_key).
  - vm_compute. reflexivity.
  - split; vm_compute; discriminate.
  - vm_compute. reflexivity.
  - vm_compute. reflexivity.
Defined.

(** ** Step 4b on an existing target *)

Section existing_target.
Import controller.
Variable env : orasclient.Env.

(** With no API call failing and the target in the store, the pass comes to
    the decision of step 4b after the digest request and the two reads. *)
Lemma Reconcile_existing_target req c c1 c2 o secretData d t :
  faults c = [] →
  Get_OCISecret req c = (c1, inr o) →
  getPullSecret o c1 = (c2, Continue secretData) →
  orasclient.GetDigest env (ArtefactRegistry (Spec o)) (OrasArtefact (Spec o))
    (String.list_byte_of_string secretData) = Ret d →
  secrets c !! target_key o = Some t →
  faults c2 = [] ∧ secrets c2 = secrets c
  ∧ Reconcile env req c
    = let c4 :=
        after_call (EvGetSecret (target_key o))
          (after_call (EvGetSecret (target_key o))
             (record (EvGetDigest (ArtefactRegistry (Spec o))
                        (OrasArtefact (Spec o))
                        (String.list_byte_of_string secretData)) c2)) in
      if needsUpdate t d (Files (Spec o))
      then updateTarget env o secretData t c4
      else (c4, Done (mkResult false (60 * Second)) None).
Proof.
  intros Hf Hget Hps Hd Ht.
  rewrite (Reconcile_loaded env req c c1 o Hget), Hps.
  apply Get_OCISecret_inv in Hget as [-> _].
  assert (faults c2 = [] ∧ secrets c2 = secrets c) as [Hf2 Hs2].
  { apply getPullSecret_inv in Hps as [(_ & -> & _)|(_ & -> & _)];
      simpl; by rewrite Hf. }
  split; [done|]. split; [done|].
  unfold syncTarget. rewrite Hd. fold (target_key o).
  rewrite Get_Secret_healthy by (simpl; by rewrite Hf2).
  cbn [secrets record]. rewrite Hs2, Ht.
  rewrite Get_Secret_healthy by (simpl; by rewrite Hf2).
  cbn [secrets record after_call]. rewrite Hs2, Ht. done.
Qed.

End existing_target.

(** X16. A target without annotations (a nil map) cannot be synced: the
    pass fetches the content and then panics on the assignment of the
    revision annotation, before the update; the stores are unchanged. *)
Theorem target_without_annotations_panics
    (env : orasclient.Env) (req : NamespacedName) (c c1 c2 : Cluster)
    (o : OCISecret) (secretData d : string) (t : Secret)
    (content : orasclient.Filemap) :
  faults c = [] →
  Get_OCISecret req c = (c1, inr o) →
  controller.getPullSecret o c1 = (c2, controller.Continue secretData) →
  orasclient.GetDigest env (ArtefactRegistry (Spec o)) (OrasArtefact (Spec o))
    (String.list_byte_of_string secretData) = Ret d →
  d ≠ "" →
  secrets c !! target_key o = Some t →
  Annotations t = None →
  orasclient.GetFiles env (ArtefactRegistry (Spec o)) (OrasArtefact (Spec o))
    (String.list_byte_of_string secretData) = Ret content →
  (controller.Reconcile env req c).2
  = controller.Panicked (ErrRuntime "assignment to entry in nil map")
  ∧ secrets (controller.Reconcile env req c).1 = secrets c
  ∧ new_events c2 (controller.Reconcile env req c).1
    = [ EvGetDigest (ArtefactRegistry (Spec o)) (OrasArtefact (Spec o))
          (String.list_byte_of_string secretData);
        EvGetSecret (target_key o);
        EvGetSecret (target_key o);
        EvGetFiles (ArtefactRegistry (Spec o)) (OrasArtefact (Spec o))
          (String.list_byte_of_string secretData) ].
Proof.
  intros Hf Hget Hps Hd Hne Ht Hnil Hfiles.
  destruct (Reconcile_existing_target env req c c1 c2 o secretData d t
              Hf Hget Hps Hd Ht) as (Hf2 & Hs2 & ->).
  assert (controller.needsUpdate t d (Files (Spec o)) = true) as ->.
  { apply needsUpdate_true. left. rewrite Hnil. by intros <-. }
  unfold controller.updateTarget. rewrite Hfiles, Hnil.
  split; [done|]. split; [done|].
  apply new_events_after. simpl. by rewrite <- !app_assoc.
Qed.

Lemma target_without_annotations_panics_witness :
  let c := examples.cluster_with ["a.txt"]
             {[ ("apps", "target") := examples.bare_target ]} [] in
  (controller.Reconcile examples.env_ok examples.req1 c).2
  = controller.Panicked (ErrRuntime "assignment to entry in nil map")
  ∧ secrets (controller.Reconcile examples.env_ok examples.req1 c).1
    = secrets c.
Proof.
  intros c.
  pose proof (target_without_annotations_panics examples.env_ok examples.req1
                c (after_call (EvGetOCISecret examples.req1) c)
                (after_call (EvGetOCISecret examples.req1) c)
                (examples.ocisecret ["a.txt"] examples.anonymous)
                "" examples.digest1 examples.bare_target
                (orasclient.mkFilemap examples.digest1
                   (Some (<["b.txt" := [x62]]> (<["a.txt" := [x61]]> ∅)))))
    as H.
  destruct H as (Hout & Hstore & _).
  - reflexivity.
  - vm_compute. reflexivity.
  - vm_compute. reflexivity.
  - vm_compute. reflexivity.
  - discriminate.
  - vm_compute. reflexivity.
  - reflexivity.
  - vm_compute. reflexivity.
  - split; [exact Hout | exact Hstore].
Defined.

Lemma Reconcile_sync_result
    (env : orasclient.Env) (req : NamespacedName) (c c1 c2 : Cluster)
    (o : OCISecret) (secretData d : string) (t : Secret)
    (annotations : gmap string string) (content : orasclient.Filemap) :
  faults c = [] →
  Get_OCISecret req c = (c1, inr o) →
  controller.getPullSecret o c1 = (c2, controller.Continue secretData) →
  orasclient.GetDigest env (ArtefactRegistry (Spec o)) (OrasArtefact (Spec o))
    (String.list_byte_of_string secretData) = Ret d →
  secrets c !! target_key o = Some t →
  secret_key t = target_key o →
  Annotations t = Some annotations →
  controller.needsUpdate t d (Files (Spec o)) = true →
  orasclient.GetFiles env (ArtefactRegistry (Spec o)) (OrasArtefact (Spec o))
    (String.list_byte_of_string secretData) = Ret content →
  (controller.Reconcile env req c).2
  = controller.Done (controller.mkResult false (60 * controller.Second)) None
  ∧ secrets (controller.Reconcile env req c).1
    = <[target_key o :=
          {| secret_Name := secret_Name t;
             secret_Namespace := secret_Namespace t;
             Annotations :=
               Some (<[controller.rev := orasclient.Digest content]>
                       annotations);
             OwnerReferences := OwnerReferences t;
             Data := controller.filterFiles (orasclient.Files content)
                       (Files (Spec o)) |}]> (secrets c).
Proof.
  intros Hf Hget Hps Hd Ht Hkey Hann Hup Hfiles.
  destruct (Reconcile_existing_target env req c c1 c2 o secretData d t
              Hf Hget Hps Hd Ht) as (Hf2 & Hs2 & ->).
  rewrite Hup. unfold controller.updateTarget. rewrite Hfiles, Hann.
  match goal with
  | |- context [Update ?obj ?cl] =>
      rewrite (Update_healthy obj t cl)
  end.
  - split; [done|]. simpl. rewrite Hs2. by rewrite <- Hkey.
  - simpl. by rewrite Hf2.
  - simpl. rewrite Hs2.
    change (secrets c !! secret_key t = Some t). by rewrite Hkey.
Qed.

(** X17. A sync replaces the data of the target wholesale and keeps the
    rest: after a pass that finds the target stale, the stored target has
    the filtered files of the artifact as its only data, the digest of the
    content under the revision annotation beside its other annotations,
    and its name and owner references as before. *)
Theorem sync_replaces_data_wholesale
    (env : orasclient.Env) (req : NamespacedName) (c c1 c2 : Cluster)
    (o : OCISecret) (secretData d : string) (t : Secret)
    (annotations : gmap string string) (content : orasclient.Filemap) :
  faults c = [] →
  Get_OCISecret req c = (c1, inr o) →
  controller.getPullSecret o c1 = (c2, controller.Continue secretData) →
  orasclient.GetDigest env (ArtefactRegistry (Spec o)) (OrasArtefact (Spec o))
    (String.list_byte_of_string secretData) = Ret d →
  secrets c !! target_key o = Some t →
  secret_key t = target_key o →
  Annotations t = Some annotations →
  controller.needsUpdate t d (Files (Spec o)) = true →
  orasclient.GetFiles env (ArtefactRegistry (Spec o)) (OrasArtefact (Spec o))
    (String.list_byte_of_string secretData) = Ret content →
  (controller.Reconcile env req c).2
  = controller.Done (controller.mkResult false (60 * controller.Second)) None
  ∧ secrets (controller.Reconcile env req c).1
    = <[target_key o :=
          {| secret_Name := secret_Name t;
             secret_Namespace := secret_Namespace t;
             Annotations :=
               Some (<[controller.rev := orasclient.Digest content]>
                       annotations);
             OwnerReferences := OwnerReferences t;
             Data := controller.filterFiles (orasclient.Files content)
                       (Files (Spec o)) |}]> (secrets c).
Proof. apply Reconcile_sync_result. Qed.

Lemma sync_replaces_data_wholesale_witness :
  let c := examples.cluster_with ["a.txt"]
             {[ ("apps", "target") := examples.stale_target ]} [] in
  secrets (controller.Reconcile examples.env_ok examples.req1 c).1
  !! ("apps", "target")
  = Some {| secret_Name := "target";
            secret_Namespace := "apps";
            Annotations := Some {[ controller.rev := examples.digest1;
                                   "team" := "platform" ]};
            OwnerReferences := [];
            Data := Some {[ "a.txt" := [x61] ]} |}.
Proof.
  intros c.
  pose proof (sync_replaces_data_wholesale examples.env_ok examples.req1
                c (after_call (EvGetOCISecret examples.req1) c)
                (after_call (EvGetOCISecret examples.req1) c)
                (examples.ocisecret ["a.txt"] examples.anonymous)
                "" examples.digest1 examples.stale_target
                {[ controller.rev := "sha256:0000"; "team" := "platform" ]}
                (orasclient.mkFilemap examples.digest1
                   (Some (<["b.txt" := [x62]]> (<["a.txt" := [x61]]> ∅)))))
    as H.
  destruct H as (_ & Hstore).
  - reflexivity.
  - vm_compute. reflexivity.
  - vm_compute. reflexivity.
  - vm_compute. reflexivity.
  - vm_compute. reflexivity.
  - reflexivity.
  - reflexivity.
  - vm_compute. reflexivity.
  - vm_compute. reflexivity.
  - rewrite Hstore. vm_compute. reflexivity.
Defined.

(** ** When the polling settles *)

Section settles.
Import controller.
Variable env : orasclient.Env.
Implicit Types (c : Cluster) (o : OCISecret) (secretData : string).

Lemma updateTarget_settled o secretData t c d :
  digest_unchanged env o d →
  content_counts env o →
  secret_key t = target_key o →
  match updateTarget env o secretData t c with
  | (c', Done _ None) =>
      ∃ t', secrets c' !! target_key o = Some t'
            ∧ gomap_index (Annotations t') rev = d
            ∧ gomap_len (Data t') = length (Files (Spec o))
  | _ => True
  end.
Proof.
  intros [_ Hpin] Hcount Hkey. unfold updateTarget.
  destruct (orasclient.GetFiles env _ _ _) as [content|v] eqn:Hfiles;
    [|done].
  pose proof (Hcount _ _ Hfiles) as Hlen. apply Hpin in Hfiles.
  destruct (Annotations t) as [annotations|]; [|done].
  run_api; [done|].
  destruct Hcall as [_ ->].
  eexists. split; [|split].
  - simpl. unfold secret_key at 1; simpl. fold (secret_key t).
    rewrite Hkey. apply lookup_insert_eq.
  - unfold gomap_index; simpl. by rewrite lookup_insert_eq.
  - exact Hlen.
Qed.

Lemma syncTarget_settled o secretData c d :
  stored_under_own_name c →
  digest_unchanged env o d →
  content_counts env o →
  match syncTarget env o secretData c with
  | (c', Done _ None) =>
      ∃ t', secrets c' !! target_key o = Some t'
            ∧ gomap_index (Annotations t') rev = d
            ∧ gomap_len (Data t') = length (Files (Spec o))
  | _ => True
  end.
Proof.
  intros Hwf Hpin Hcount. unfold syncTarget.
  destruct (orasclient.GetDigest env _ _ _) as [d'|v] eqn:Hd; [|done].
  apply (proj1 Hpin) in Hd as ->. fold (target_key o).
  run_api.
  - destruct (IsNotFound e); [|done].
    destruct Hcall as [[Hnone _]|?]; [|done].
    run_api.
    + subst. run_api; [done|]. congruence.
    + destruct Hcall as [_ ->]. run_api; [done|].
      change (secret_key (newTargetSecret o)) with (target_key o) in Hcall.
      rewrite lookup_insert_eq in Hcall. injection Hcall as <-.
      destruct (needsUpdate _ _ _) eqn:Hup.
      * by apply updateTarget_settled.
      * apply needsUpdate_false in Hup as [Hrev Hlen].
        eexists. split; [|split; [exact Hrev|exact Hlen]].
        simpl. change (secret_key (newTargetSecret o)) with (target_key o).
        apply lookup_insert_eq.
  - run_api; [done|].
    destruct (needsUpdate _ _ _) eqn:Hup.
    + apply updateTarget_settled; [done|done|]. by apply Hwf.
    + apply needsUpdate_false in Hup as [Hrev Hlen]. by exists s0.
Qed.

Lemma Reconcile_settled req c o d c' res :
  stored_under_own_name c →
  ocisecrets c !! req = Some o →
  digest_unchanged env o d →
  content_counts env o →
  Reconcile env req c = (c', Done res None) →
  (pull_secret_set o
   ∧ ∃ ps, secrets c' !! pull_secret_key o = Some ps
           ∧ dockerconfigjson (Data ps) = "")
  ∨ ∃ t, secrets c' !! target_key o = Some t
         ∧ gomap_index (Annotations t) rev = d
         ∧ gomap_len (Data t) = length (Files (Spec o)).
Proof.
  intros Hwf Ho Hpin Hcount.
  destruct (Get_OCISecret req c) as [c1 [err|o']] eqn:Hget.
  - unfold Reconcile. rewrite Hget.
    apply Get_OCISecret_inv in Hget as [-> Hr].
    destruct Hr as [[Hn _]|Hnf]; [congruence|]. by rewrite Hnf.
  - rewrite (Reconcile_loaded env req c c1 o' Hget).
    apply Get_OCISecret_inv in Hget as [-> Ho'].
    assert (o' = o) as -> by congruence.
    destruct (getPullSecret o _) as [c2 fl] eqn:Hps.
    apply getPullSecret_inv in Hps. destruct fl as [secretData|res' err].
    + intros Hsync.
      assert (secrets c2 = secrets c) as Hs2
        by (by destruct Hps as [(_ & -> & _)|(_ & -> & _)]).
      pose proof (syncTarget_settled o secretData c2 d) as Hpost.
      rewrite Hsync in Hpost. right. apply Hpost; [|done|done].
      intros key obj. rewrite Hs2. apply Hwf.
    + intros [= -> -> ->].
      destruct Hps as (Hset & -> & _ & ps & Hps & Hd).
      left. split; [done|]. by exists ps.
Qed.

(** A duplicate-free, non-empty list of files that the artifact always
    contains passes the count check. *)
Lemma listed_files_count o :
  Files (Spec o) ≠ [] →
  NoDup (Files (Spec o)) →
  (∀ creds content,
     orasclient.GetFiles env (ArtefactRegistry (Spec o))
       (OrasArtefact (Spec o)) creds = Ret content →
     ∀ key, key ∈ Files (Spec o) →
            key ∈ gomap_keys (orasclient.Files content)) →
  content_counts env o.
Proof.
  intros Hne Hnd Hin creds content Hfiles. unfold filterFiles.
  rewrite bool_decide_eq_true_2
    by (destruct (Files (Spec o)); [done|simpl; lia]).
  apply FilterMapInPlace_count; [done|]. by apply (Hin creds).
Qed.

End settles.

(** X18. The polling settles when the list of files is non-empty, has no
    repetition and names only files of the artifact: after any pass that
    returned a nil error, the next pass against the same digest neither
    fetches the content nor writes a Secret. *)
Theorem polling_settles
    (env : orasclient.Env) (req : NamespacedName) (c0 c1 : Cluster)
    (o : OCISecret) (d : string) (res : controller.Result) :
  stored_under_own_name c0 →
  ocisecrets c0 !! req = Some o →
  digest_unchanged env o d →
  Files (Spec o) ≠ [] →
  NoDup (Files (Spec o)) →
  (∀ creds content,
     orasclient.GetFiles env (ArtefactRegistry (Spec o))
       (OrasArtefact (Spec o)) creds = Ret content →
     ∀ key, key ∈ Files (Spec o) →
            key ∈ gomap_keys (orasclient.Files content)) →
  controller.Reconcile env req c0 = (c1, controller.Done res None) →
  secrets (controller.Reconcile env req c1).1 = secrets c1
  ∧ Forall (fun ev => is_write ev = false)
      (new_events c1 (controller.Reconcile env req c1).1).
Proof.
  intros Hwf Ho Hpin Hne Hnd Hin Hfirst.
  pose proof (listed_files_count env o Hne Hnd Hin) as Hcount.
  destruct (Reconcile_post env req c0 o d c1 res Hwf Ho Hpin Hfirst)
    as [Hoc _].
  apply quiet_step_new_events, (Reconcile_quiet env req c1 o d).
  - by rewrite Hoc.
  - done.
  - exact (Reconcile_settled env req c0 o d c1 res Hwf Ho Hpin Hcount Hfirst).
Qed.

Lemma polling_settles_witness :
  let c0 := examples.cluster_with ["b.txt"; "a.txt"]
              {[ ("apps", "target") := examples.stale_target ]} [] in
  let c1 := (controller.Reconcile examples.env_ok examples.req1 c0).1 in
  secrets (controller.Reconcile examples.env_ok examples.req1 c1).1
  = secrets c1
  ∧ Forall (fun ev => is_write ev = false)
      (new_events c1 (controller.Reconcile examples.env_ok examples.req1 c1).1).
Proof.
  intros c0 c1.
  apply (polling_settles examples.env_ok examples.req1 c0 c1
           (examples.ocisecret ["b.txt"; "a.txt"] examples.anonymous)
           examples.digest1
           (controller.mkResult false (60 * controller.Second))).
  - intros key obj Hl. simpl in Hl.
    by apply lookup_singleton_Some in Hl as [<- <-].
  - vm_compute. reflexivity.
  - apply env_ok_digest_unchanged.
  - discriminate.
  - simpl. repeat constructor; rewrite ?elem_of_cons, ?elem_of_nil;
      intros H; repeat destruct H as [H|H]; discriminate || done.
  - intros creds content Hfiles key Hkey.
    unfold orasclient.GetFiles, orasclient.CreateClient in Hfiles.
    simpl in Hfiles.
    assert (content = orasclient.mkFilemap examples.digest1
              (Some (<["b.txt" := [x62]]> (<["a.txt" := [x61]]> ∅)))) as ->
      by (destruct (bool_decide _); simpl in Hfiles; congruence).
    simpl in Hkey. apply elem_of_gomap_keys.
    rewrite !elem_of_cons, elem_of_nil in Hkey.
    destruct Hkey as [->|[->|[]]]; vm_compute; eauto.
  - vm_compute. reflexivity.
Defined.

(** ** The trigger, on the code *)

Section trigger.
Import controller.
Variable env : orasclient.Env.

Lemma updateTarget_trace_first o secretData t c :
  (trace c ++ [EvGetFiles (ArtefactRegistry (Spec o)) (OrasArtefact (Spec o))
                 (String.list_byte_of_string secretData)])%list
  `prefix_of` trace (updateTarget env o secretData t c).1.
Proof.
  unfold updateTarget.
  destruct (orasclient.GetFiles env _ _ _); [|trace_prefix].
  destruct (Annotations t); [|trace_prefix].
  run_api; [subst|destruct Hcall as [_ ->]]; trace_prefix.
Qed.

End trigger.

(** X19. The trigger as the code has it: in a pass that finds the target
    (no API call failing, credentials resolved, digest fetched), the
    content is requested exactly when the revision annotation differs from
    the current digest or the number of entries of the target differs from
    the number of listed files, whether or not files are listed. *)
Theorem content_requested_iff_needed
    (env : orasclient.Env) (req : NamespacedName) (c c1 c2 : Cluster)
    (o : OCISecret) (secretData d : string) (t : Secret) :
  faults c = [] →
  Get_OCISecret req c = (c1, inr o) →
  controller.getPullSecret o c1 = (c2, controller.Continue secretData) →
  orasclient.GetDigest env (ArtefactRegistry (Spec o)) (OrasArtefact (Spec o))
    (String.list_byte_of_string secretData) = Ret d →
  secrets c !! target_key o = Some t →
  EvGetFiles (ArtefactRegistry (Spec o)) (OrasArtefact (Spec o))
    (String.list_byte_of_string secretData)
  ∈ new_events c2 (controller.Reconcile env req c).1
  ↔ gomap_index (Annotations t) controller.rev ≠ d
    ∨ gomap_len (Data t) ≠ length (Files (Spec o)).
Proof.
  intros Hf Hget Hps Hd Ht.
  destruct (Reconcile_existing_target env req c c1 c2 o secretData d t
              Hf Hget Hps Hd Ht) as (_ & _ & ->).
  rewrite <- needsUpdate_true. cbv zeta.
  destruct (controller.needsUpdate t d (Files (Spec o))).
  - split; [done|]. intros _.
    match goal with
    | |- context [controller.updateTarget env o secretData t ?c4] =>
        destruct (updateTarget_trace_first env o secretData t c4) as [k Hk]
    end.
    unfold new_events.
    rewrite Hk. simpl. rewrite <- !app_assoc, drop_app_length. simpl.
    do 3 right. by left.
  - split; [|done]. unfold new_events. simpl.
    rewrite <- !app_assoc, drop_app_length. simpl.
    rewrite !elem_of_cons, elem_of_nil. intros [?|[?|[?|[]]]]; discriminate.
Qed.

Lemma content_requested_iff_needed_witness :
  let c := examples.cluster_sync_all in
  let o := examples.ocisecret [] examples.anonymous in
  let t := examples.synced_target {[ "a.txt" := [x61]; "b.txt" := [x62] ]} in
  EvGetFiles (ArtefactRegistry (Spec o)) (OrasArtefact (Spec o)) []
  ∈ new_events (after_call (EvGetOCISecret examples.req1) c)
      (controller.Reconcile examples.env_ok examples.req1 c).1
  ↔ gomap_index (Annotations t) controller.rev ≠ examples.digest1
    ∨ gomap_len (Data t) ≠ length (Files (Spec o)).
Proof.
  intros c o t.
  apply (content_requested_iff_needed examples.env_ok examples.req1
           c (after_call (EvGetOCISecret examples.req1) c)
           (after_call (EvGetOCISecret examples.req1) c)
           o "" examples.digest1 t).
  - reflexivity.
  - vm_compute. reflexivity.
  - vm_compute. reflexivity.
  - vm_compute. reflexivity.
  - vm_compute. reflexivity.
Defined.

(** The next call is served from the stores when the head of the
    schedule is [None], and refused when it is [Some msg]. *)
Lemma Get_Secret_served key c rest :
  faults c = None :: rest →
  Get_Secret key c
  = (after_call (EvGetSecret key) c,
     match secrets c !! key with
     | Some s => inr s
     | None => inl (ErrNotFound key.2)
     end).
Proof.
  intros Hf. unfold Get_Secret, next_fault, record, after_call; simpl.
  rewrite Hf; simpl. by destruct (secrets c !! key).
Qed.

Lemma Create_refused obj c msg rest :
  faults c = Some msg :: rest →
  Create obj c = (after_call (EvCreate obj) c, Some (ErrAPI msg)).
Proof.
  intros Hf. unfold Create, next_fault, record, after_call; simpl.
  by rewrite Hf.
Qed.

(** X20. The error of [Create] is not returned: when the target is absent
    and its creation fails, the pass goes on to the second read and fails
    with the not-found error of that read; nothing is written and the
    registry content is not requested. *)
Theorem failed_create_surfaces_as_not_found
    (env : orasclient.Env) (req : NamespacedName) (c c1 c2 : Cluster)
    (o : OCISecret) (secretData d msg : string) :
  Get_OCISecret req c = (c1, inr o) →
  controller.getPullSecret o c1 = (c2, controller.Continue secretData) →
  orasclient.GetDigest env (ArtefactRegistry (Spec o)) (OrasArtefact (Spec o))
    (String.list_byte_of_string secretData) = Ret d →
  secrets c !! target_key o = None →
  faults c2 = [None; Some msg] →
  (controller.Reconcile env req c).2
  = controller.Done controller.emptyResult
      (Some (ErrNotFound (ref_Name (TargetSecret (Spec o)))))
  ∧ secrets (controller.Reconcile env req c).1 = secrets c
  ∧ new_events c2 (controller.Reconcile env req c).1
    = [ EvGetDigest (ArtefactRegistry (Spec o)) (OrasArtefact (Spec o))
          (String.list_byte_of_string secretData);
        EvGetSecret (target_key o);
        EvCreate (controller.newTargetSecret o);
        EvGetSecret (target_key o) ].
Proof.
  intros Hget Hps Hd Hnone Hf2.
  rewrite (Reconcile_loaded env req c c1 o Hget), Hps.
  apply Get_OCISecret_inv in Hget as [-> _].
  assert (secrets c2 = secrets c) as Hs2
    by (by apply getPullSecret_inv in Hps as [(_ & -> & _)|(_ & -> & _)]).
  unfold controller.syncTarget. rewrite Hd. fold (target_key o).
  rewrite (Get_Secret_served _ _ [Some msg]) by (simpl; by rewrite Hf2).
  cbn [secrets record]. rewrite Hs2, Hnone. cbn [IsNotFound].
  rewrite (Create_refused _ _ msg []) by (simpl; by rewrite Hf2).
  cbn [fst].
  rewrite Get_Secret_healthy by (simpl; by rewrite Hf2).
  cbn [secrets record after_call]. rewrite Hs2, Hnone.
  split; [done|]. split; [done|].
  apply new_events_after. simpl. by rewrite <- !app_assoc.
Qed.

Lemma failed_create_surfaces_as_not_found_witness :
  let c := examples.cluster_with ["a.txt"] ∅
             [None; None; Some "admission webhook denied the request"] in
  (controller.Reconcile examples.env_ok examples.req1 c).2
  = controller.Done controller.emptyResult (Some (ErrNotFound "target"))
  ∧ secrets (controller.Reconcile examples.env_ok examples.req1 c).1
    = secrets c.
Proof.
  intros c.
  pose proof (failed_create_surfaces_as_not_found examples.env_ok
                examples.req1 c
                (after_call (EvGetOCISecret examples.req1) c)
                (after_call (EvGetOCISecret examples.req1) c)
                (examples.ocisecret ["a.txt"] examples.anonymous)
                "" examples.digest1 "admission webhook denied the request")
    as H.
  destruct H as (Hout & Hstore & _).
  - vm_compute. reflexivity.
  - vm_compute. reflexivity.
  - vm_compute. reflexivity.
  - vm_compute. reflexivity.
  - reflexivity.
  - split; [exact Hout | exact Hstore].
Defined.

(** ** A read failure after the transfer *)

Lemma filterFiles_nil (files : list string) :
  controller.filterFiles None files = None.
Proof. unfold controller.filterFiles. by case_bool_decide. Qed.

(** X21. The dropped read error reaches the target: when the transfer
    succeeds and the staged files cannot be read back, a pass that finds
    the target stale stores it with nil data and with the digest of the
    copy as its revision, and returns the 60 seconds with a nil error. *)
Theorem read_failure_empties_target
    (env : orasclient.Env) (req : NamespacedName) (c c1 c2 : Cluster)
    (o : OCISecret) (secretData d tmpdir copied : string) (t : Secret)
    (annotations : gmap string string) (repo : orasclient.Repository)
    (dir : error + list orasclient.DirEntry) (err : error) :
  faults c = [] →
  Get_OCISecret req c = (c1, inr o) →
  controller.getPullSecret o c1 = (c2, controller.Continue secretData) →
  orasclient.GetDigest env (ArtefactRegistry (Spec o)) (OrasArtefact (Spec o))
    (String.list_byte_of_string secretData) = Ret d →
  secrets c !! target_key o = Some t →
  secret_key t = target_key o →
  Annotations t = Some annotations →
  controller.needsUpdate t d (Files (Spec o)) = true →
  orasclient.MkdirTemp env = inr tmpdir →
  orasclient.file_New env tmpdir = None →
  orasclient.CreateClient env (ArtefactRegistry (Spec o))
    (String.list_byte_of_string secretData) = Ret repo →
  orasclient.Copy env repo (OrasArtefact (Spec o)) = inr (copied, dir) →
  (orasclient.GetFilesContentBinary dir).2 = Some err →
  (controller.Reconcile env req c).2
  = controller.Done (controller.mkResult false (60 * controller.Second)) None
  ∧ secrets (controller.Reconcile env req c).1
    = <[target_key o :=
          {| secret_Name := secret_Name t;
             secret_Namespace := secret_Namespace t;
             Annotations := Some (<[controller.rev := copied]> annotations);
             OwnerReferences := OwnerReferences t;
             Data := None |}]> (secrets c).
Proof.
  intros Hf Hget Hps Hd Ht Hkey Hann Hup Htmp Hnew Hclient Hcopy Herr.
  pose proof (GetFiles_read_error env _ _ tmpdir copied _ repo dir err
                Htmp Hnew Hclient Hcopy Herr) as Hfiles.
  pose proof (Reconcile_sync_result env req c c1 c2 o secretData d t
                annotations _ Hf Hget Hps Hd Ht Hkey Hann Hup Hfiles) as H.
  simpl in H. by rewrite filterFiles_nil in H.
Qed.

Lemma read_failure_empties_target_witness :
  let c := examples.cluster_with ["a.txt"]
             {[ ("apps", "target") := examples.stale_target ]} [] in
  secrets (controller.Reconcile examples.env_read_fails examples.req1 c).1
  !! ("apps", "target")
  = Some {| secret_Name := "target";
            secret_Namespace := "apps";
            Annotations := Some {[ controller.rev := examples.digest1;
                                   "team" := "platform" ]};
            OwnerReferences := [];
            Data := None |}.
Proof.
  intros c.
  pose proof (read_failure_empties_target examples.env_read_fails
                examples.req1
                c (after_call (EvGetOCISecret examples.req1) c)
                (after_call (EvGetOCISecret examples.req1) c)
                (examples.ocisecret ["a.txt"] examples.anonymous)
                "" examples.digest1 "/tmp/oras123" examples.digest1
                examples.stale_target
                {[ controller.rev := "sha256:0000"; "team" := "platform" ]}
                (orasclient.mkRepository "registry.example/conf"
                   (orasclient.mkClient None))
                (inr [examples.a_txt; examples.locked_txt; examples.b_txt])
                (ErrWrapped "fehler beim Lesen der Datei locked.txt"
                   (ErrLib "permission denied")))
    as H.
  destruct H as (_ & Hstore).
  - reflexivity.
  - vm_compute. reflexivity.
  - vm_compute. reflexivity.
  - vm_compute. reflexivity.
  - vm_compute. reflexivity.
  - reflexivity.
  - reflexivity.
  - vm_compute. reflexivity.
  - reflexivity.
  - reflexivity.
  - reflexivity.
  - reflexivity.
  - reflexivity.
  - rewrite Hstore. vm_compute. reflexivity.
Defined.
